(** * Cross-filter dashboard engine (app.py / app_comment.py)

    A shallow embedding of the filter, KPI, drill-down and click-handling
    logic of the education dashboard.  The two source files carry the same
    engine: [app.py] as module-level functions over a global [state] dict,
    [app_comment.py] as methods of a [Dashboard] class over [self.state].
    The definitions below follow [app.py]; [Module Dashboard] holds the
    methods of the class whose text differs.

    Modelling choices.
    - A pandas DataFrame is a [list Row]; boolean indexing [d[d[c] == v]] is
      [filter]; [df.copy()] is the list itself, handed on as a value.
    - Numeric columns ([Score], [Weight], [WeightedScore]) are rationals
      [Q].  The page is computed with exact arithmetic; the KPI block is
      also given over a [Machine], whose sums, quotients, products and
      number formatting may wrap and round as int64 and doubles do.
    - The handlers return the world they end in or the exception; module
      [Stepwise] gives them statement by statement, where an exception
      keeps what the statements before it wrote.
    - Labels (grade, level, subject, quarter and month labels) and the
      values of the filter state are [string]s.
    - Python exceptions are values of [exn], carried by [result].
    - The Python [state] dict has five fixed keys and is a record. *)

From Stdlib Require Import ZArith QArith Qround Qabs List Bool Ascii String Lia.
From Stdlib Require Import Numbers.DecimalString.
From Stdlib Require Import Lqa Permutation Sorted.
Import ListNotations.

Open Scope string_scope.

(** ** Python strings *)

Module PyStr.

(** [c in s] for a one-character needle [c]. *)
Fixpoint contains (c : ascii) (s : string) : bool :=
  match s with
  | EmptyString => false
  | String a s' => Ascii.eqb a c || contains c s'
  end.

(** [str(n)] for an int. *)
Definition str (n : Z) : string := NilZero.string_of_int (Z.to_int n).

(** [f"{n:02d}"]: zero-padded to width two; the sign counts in the width. *)
Definition fmt_02d (n : Z) : string :=
  if (0 <=? n)%Z && (n <? 10)%Z then "0" ++ str n else str n.

(** Left padding with zeros up to [w] characters. *)
Fixpoint zeros (n : nat) : string :=
  match n with O => EmptyString | S k => String "0" (zeros k) end.

Definition zfill (w : nat) (s : string) : string :=
  zeros (w - String.length s) ++ s.

(** Rounding to the nearest integer, ties to the even one, as Python's
    float formatting rounds the decimal expansion. *)
Definition round_half_even (x : Q) : Z :=
  let fl := Qfloor x in
  match Qcompare (x - inject_Z fl) (1 # 2) with
  | Lt => fl
  | Gt => (fl + 1)%Z
  | Eq => if Z.even fl then fl else (fl + 1)%Z
  end.

(** [f"{x:.{d}f}"] for [d >= 1]. *)
Definition fmt_f (d : nat) (x : Q) : string :=
  let p := (10 ^ Z.of_nat d)%Z in
  let n := round_half_even (Qabs x * inject_Z p) in
  (if Qlt_le_dec x 0 then "-" else EmptyString)
    ++ str (n / p) ++ "." ++ zfill d (str (n mod p)).

End PyStr.

(** ** Exceptions *)

Inductive exn : Type :=
| IndexError
| KeyError (key : string)
| TypeError
| ZeroDivisionError.

Inductive result (A : Type) : Type :=
| Ok (a : A)
| Raise (e : exn).
Arguments Ok {A} a.
Arguments Raise {A} e.

Definition bind {A B} (m : result A) (k : A -> result B) : result B :=
  match m with
  | Ok a => k a
  | Raise e => Raise e
  end.

Notation "x <- m ;; k" := (bind m (fun x => k))
  (at level 61, m at next level, right associativity).

(** ** 1. Data loading and processing *)

(** A record of the fact sheet after the three dimension merges: the
    student's level, the subject's name and the calendar's year, quarter
    number and month are already attached. *)
Record RawRow : Type := mkRawRow {
  raw_StudentID : Z;
  raw_GradeLevel : string;
  raw_SubjectName : string;
  raw_Year : Z;
  raw_QuarterNumber : Z;
  raw_Month : Z;
  raw_Score : Q;
  raw_Weight : Q;
  raw_WeightedScore : Q
}.

(** The sheet together with the presence of its two optional columns; the
    value of an absent column is not read. *)
Record FactSheet : Type := mkFactSheet {
  has_Weight : bool;
  has_WeightedScore : bool;
  records : list RawRow
}.

(** A row of the flattened table [df]. *)
Record Row : Type := mkRow {
  StudentID : Z;
  GradeLevel : string;
  SubjectName : string;
  YearQuarterConcat : string;
  YearMonthConcat : string;
  Score : Q;
  Weight : Q;
  WeightedScore : Q;
  PassedScore : string;
  Assessment_Grade : string
}.

(** [Year.astype(str) + " " + f"Q{QuarterNumber}"] *)
Definition year_quarter_concat (year quarter : Z) : string :=
  PyStr.str year ++ " " ++ ("Q" ++ PyStr.str quarter).

(** [Year.astype(str) + "-" + f"{Month:02d}"] *)
Definition year_month_concat (year month : Z) : string :=
  PyStr.str year ++ "-" ++ PyStr.fmt_02d month.

(** [x > y] on numbers. *)
Definition Qgtb (x y : Q) : bool := negb (Qle_bool x y).

Definition passed_score (x : Q) : string :=
  if Qle_bool 55 x then "Pass" else "Fail".

Definition get_grade (score : Q) : string :=
  if Qgtb score 84 then "A"
  else if Qgtb score 74 then "B"
  else if Qgtb score 64 then "C"
  else if Qgtb score 54 then "D"
  else "F".

Definition grade_order : list string := ["A"; "B"; "C"; "D"; "F"].

(** The code of a category in [grade_order] (its position). *)
Fixpoint category_code (cats : list string) (g : string) : nat :=
  match cats with
  | [] => O
  | c :: cats' => if String.eqb c g then O else S (category_code cats' g)
  end.

Definition enrich (s : FactSheet) (r : RawRow) : Row :=
  let w := if has_Weight s then raw_Weight r else 1 in
  let ws := if has_WeightedScore s then raw_WeightedScore r
            else raw_Score r * w in
  {| StudentID := raw_StudentID r;
     GradeLevel := raw_GradeLevel r;
     SubjectName := raw_SubjectName r;
     YearQuarterConcat := year_quarter_concat (raw_Year r) (raw_QuarterNumber r);
     YearMonthConcat := year_month_concat (raw_Year r) (raw_Month r);
     Score := raw_Score r;
     Weight := w;
     WeightedScore := ws;
     PassedScore := passed_score (raw_Score r);
     Assessment_Grade := get_grade (raw_Score r) |}.

(** The order of [sort_values(['GradeLevel', 'Assessment_Grade'])]: level
    first, then the grade's category code. *)
Definition row_leb (a b : Row) : bool :=
  match String.compare (GradeLevel a) (GradeLevel b) with
  | Lt => true
  | Gt => false
  | Eq => Nat.leb (category_code grade_order (Assessment_Grade a))
                  (category_code grade_order (Assessment_Grade b))
  end.

Section StableSort.
Context {A : Type} (leb : A -> A -> bool).

(** [x] comes from before every element of [l]: it goes in front of the
    first element it does not exceed, so equal keys keep their order. *)
Fixpoint insert_sorted (x : A) (l : list A) : list A :=
  match l with
  | [] => [x]
  | y :: l' => if leb x y then x :: l else y :: insert_sorted x l'
  end.

Definition sort_stable (l : list A) : list A :=
  fold_right insert_sorted [] l.
End StableSort.

(** The table [df] after the module-level preparation. *)
Definition prepare (s : FactSheet) : list Row :=
  sort_stable row_leb (map (enrich s) (records s)).

(** ** 2. Dashboard state and filter logic *)

Inductive ViewMode : Type := Quarter | Month.

Definition ViewMode_eqb (a b : ViewMode) : bool :=
  match a, b with
  | Quarter, Quarter | Month, Month => true
  | _, _ => false
  end.

(** The [state] dict. *)
Record State : Type := mkState {
  grade : string;
  level : string;
  time : string;
  subject : string;
  view_mode : ViewMode
}.

Definition initial_state : State :=
  {| grade := "All"; level := "All"; time := "All"; subject := "All";
     view_mode := Quarter |}.

(** [a != b] on strings. *)
Definition neqb (a b : string) : bool := negb (String.eqb a b).

(** [d[d[col] == v]] *)
Definition where_eq (col : Row -> string) (v : string) (d : list Row)
  : list Row :=
  filter (fun r => String.eqb (col r) v) d.

Definition get_data (df : list Row) (state : State)
  (ignore_grade ignore_level ignore_time ignore_subject : bool) : list Row :=
  let d := df in
  let d := if negb ignore_grade && neqb (grade state) "All"
           then where_eq Assessment_Grade (grade state) d else d in
  let d := if negb ignore_level && neqb (level state) "All"
           then where_eq GradeLevel (level state) d else d in
  let d := if negb ignore_subject && neqb (subject state) "All"
           then where_eq SubjectName (subject state) d else d in
  let curr_time := time state in
  let d := if negb ignore_time && neqb curr_time "All"
           then if PyStr.contains "Q" curr_time
                then where_eq YearQuarterConcat curr_time d
                else where_eq YearMonthConcat curr_time d
           else d in
  d.

(** ** Frames as objects

    The same function over a heap of frames, to tell apart the frame bound
    to the global [df] and the frames [get_data] makes: [df.copy()] and
    every boolean indexing [d[...]] build a new frame; [d = ...] rebinds the
    local name and writes no frame. *)

Module Frames.

Definition Ref : Type := nat.
Definition Heap : Type := list (list Row).

Definition read (h : Heap) (r : Ref) : list Row := nth r h [].

Definition alloc (f : list Row) (h : Heap) : Ref * Heap :=
  (List.length h, (h ++ [f])%list).

(** [r.copy()] *)
Definition copy (r : Ref) (h : Heap) : Ref * Heap := alloc (read h r) h.

(** [d[d[col] == v]] *)
Definition select (col : Row -> string) (v : string) (d : Ref) (h : Heap)
  : Ref * Heap :=
  alloc (where_eq col v (read h d)) h.

Definition get_data (df : Ref) (state : State)
  (ignore_grade ignore_level ignore_time ignore_subject : bool) (h : Heap)
  : Ref * Heap :=
  let '(d, h) := copy df h in
  let '(d, h) := if negb ignore_grade && neqb (grade state) "All"
                 then select Assessment_Grade (grade state) d h else (d, h) in
  let '(d, h) := if negb ignore_level && neqb (level state) "All"
                 then select GradeLevel (level state) d h else (d, h) in
  let '(d, h) := if negb ignore_subject && neqb (subject state) "All"
                 then select SubjectName (subject state) d h else (d, h) in
  let curr_time := time state in
  let '(d, h) := if negb ignore_time && neqb curr_time "All"
                 then if PyStr.contains "Q" curr_time
                      then select YearQuarterConcat curr_time d h
                      else select YearMonthConcat curr_time d h
                 else (d, h) in
  (d, h).

End Frames.

(** ** Series arithmetic *)

Definition Qsum (l : list Q) : Q := fold_right Qplus 0 l.

(** [len(d)] as a number. *)
Definition len {A} (l : list A) : Q := inject_Z (Z.of_nat (List.length l)).

(** Python's [/]: a zero divisor raises. *)
Definition truediv (a b : Q) : result Q :=
  if Qeq_bool b 0 then Raise ZeroDivisionError else Ok (a / b).

(** [Series.mean()] of a series that holds a value; callers check [.empty]
    first, as the source does. *)
Definition mean (l : list Q) : Q := Qsum l / len l.

(** [Series.max()] of a series that holds a value. *)
Definition Qmax (a b : Q) : Q := if Qle_bool a b then b else a.

Definition series_max (l : list Q) : Q :=
  match l with
  | [] => 0
  | x :: l' => fold_left Qmax l' x
  end.

(** [Series.nunique()] *)
Fixpoint unique (l : list Z) : list Z :=
  match l with
  | [] => []
  | x :: l' => x :: filter (fun y => negb (Z.eqb y x)) (unique l')
  end.

Definition nunique (l : list Z) : nat := List.length (unique l).

(** ** Aggregations *)

(** The sorted distinct keys of a [groupby]. *)
Fixpoint insert_key (k : string) (l : list string) : list string :=
  match l with
  | [] => [k]
  | y :: l' =>
      match String.compare k y with
      | Lt => k :: l
      | Eq => l
      | Gt => y :: insert_key k l'
      end
  end.

Definition group_keys (l : list string) : list string :=
  fold_right insert_key [] l.

(** [d.groupby(col)[...].agg()]: one line per key, keys ascending. *)
Definition groupby {V} (col : Row -> string) (agg : list Row -> V)
  (d : list Row) : list (string * V) :=
  map (fun k => (k, agg (where_eq col k d))) (group_keys (map col d)).

(** [d.groupby('Assessment_Grade', observed=False)['Score'].count()]: the
    column is categorical, so there is one line per category of
    [grade_order], in that order, observed or not. *)
Definition groupby_grade_count (d : list Row) : list (string * nat) :=
  map (fun g => (g, List.length (where_eq Assessment_Grade g d))) grade_order.

Definition mean_score (d : list Row) : Q := mean (map Score d).

(** ** 3. The page *)

Record PieFigure : Type := mkPie {
  pie_slices : list (string * nat);
  pie_pull : option (list Q);
  pie_annotation : nat
}.

Record BarFigure : Type := mkBar {
  bars : list (string * Q);
  bar_opacity : option (list Q);
  bar_hline : Q
}.

(** The widgets [update_dashboard] writes.  A figure that is [None] is the
    blank [go.Figure()].  [refreshes] is not a widget: it counts the calls of
    [update_dashboard]. *)
Record UI : Type := mkUI {
  status_label : string;
  kpi_avg : string;
  kpi_weighted : string;
  kpi_pass : string;
  kpi_perfect : string;
  plot_grade : option PieFigure;
  plot_level : option PieFigure;
  plot_time : option BarFigure;
  plot_subject : option BarFigure;
  time_title_label : string;
  view_toggle : ViewMode;
  refreshes : nat
}.

(** The page as [index()] builds it, before the first refresh. *)
Definition initial_ui : UI :=
  {| status_label := EmptyString;
     kpi_avg := "0.00"; kpi_weighted := "0.00%";
     kpi_pass := "0.00%"; kpi_perfect := "0.0%";
     plot_grade := None; plot_level := None;
     plot_time := None; plot_subject := None;
     time_title_label := "Performance Over Time";
     view_toggle := Quarter;
     refreshes := O |}.

(** The global table, the filter state and the page of one session. *)
Record World : Type := mkWorld {
  df : list Row;
  state : State;
  ui : UI
}.

(** *** KPIs *)

Definition val_w (d_kpi : list Row) : result Q :=
  let w_sum := Qsum (map Weight d_kpi) in
  if Qgtb w_sum 0 then truediv (Qsum (map WeightedScore d_kpi)) w_sum
  else Ok 0.

Definition weighted_display (val_w : Q) : Q :=
  if Qle_bool val_w 1 then val_w * 100 else val_w.

Definition pass_rate (d_kpi : list Row) : result Q :=
  q <- truediv (len (where_eq PassedScore "Pass" d_kpi)) (len d_kpi) ;;
  Ok (q * 100).

Definition target (df : list Row) : Q :=
  if Qgtb (series_max (map Score df)) 1 then 100 else 1.

Definition perfect_rate (df d_kpi : list Row) : result Q :=
  let t := target df in
  q <- truediv (len (filter (fun r => Qeq_bool (Score r) t) d_kpi))
               (len d_kpi) ;;
  Ok (q * 100).

Record Kpis : Type := mkKpis {
  avg_text : string;
  weighted_text : string;
  pass_text : string;
  perfect_text : string
}.

Definition is_empty {A} (l : list A) : bool :=
  match l with [] => true | _ => false end.

Definition compute_kpis (df d_kpi : list Row) : result Kpis :=
  if is_empty d_kpi then
    Ok {| avg_text := "0.00"; weighted_text := "0.00%";
          pass_text := "0.00%"; perfect_text := "0.0%" |}
  else
    let avg := PyStr.fmt_f 2 (mean_score d_kpi) in
    v <- val_w d_kpi ;;
    let weighted := PyStr.fmt_f 2 (weighted_display v) ++ "%" in
    p <- pass_rate d_kpi ;;
    let pass := PyStr.fmt_f 2 p ++ "%" in
    f <- perfect_rate df d_kpi ;;
    let perfect := PyStr.fmt_f 1 f ++ "%" in
    Ok {| avg_text := avg; weighted_text := weighted;
          pass_text := pass; perfect_text := perfect |}.

(** *** Charts *)

Definition pull_for (sel : string) (labels : list string) : option (list Q) :=
  if neqb sel "All"
  then Some (map (fun x => if String.eqb x sel then 1 # 10 else 0) labels)
  else None.

Definition grade_chart (df : list Row) (state : State) (d_kpi : list Row)
  : option PieFigure :=
  let d_grade := get_data df state true false false false in
  if negb (is_empty d_grade) then
    let df_agg := groupby_grade_count d_grade in
    Some {| pie_slices := df_agg;
            pie_pull := pull_for (grade state) (map fst df_agg);
            pie_annotation := List.length d_kpi |}
  else None.

Definition level_chart (df : list Row) (state : State) (d_kpi : list Row)
  : option PieFigure :=
  let d_level := get_data df state false true false false in
  if negb (is_empty d_level) then
    let df_agg :=
      groupby GradeLevel (fun g => nunique (map StudentID g)) d_level in
    Some {| pie_slices := df_agg;
            pie_pull := pull_for (level state) (map fst df_agg);
            pie_annotation := nunique (map StudentID d_kpi) |}
  else None.

(** The rows the time chart is drawn from: [d_time] after the drill-down
    context has been applied. *)
Definition time_chart_rows (df : list Row) (state : State) : list Row :=
  let d_time := get_data df state false false true false in
  match view_mode state with
  | Month =>
      if neqb (time state) "All" && PyStr.contains "Q" (time state) then
        where_eq YearQuarterConcat (time state) d_time
      else if neqb (time state) "All" && PyStr.contains "-" (time state) then
        let matches := where_eq YearMonthConcat (time state) df in
        match matches with
        | r0 :: _ =>
            let parent_quarter := YearQuarterConcat r0 in
            where_eq YearQuarterConcat parent_quarter d_time
        | [] => d_time
        end
      else d_time
  | Quarter => d_time
  end.

Definition time_title (state : State) : string :=
  if ViewMode_eqb (view_mode state) Month && PyStr.contains "Q" (time state)
  then "Monthly Breakdown for " ++ time state
  else "Performance Over Time".

Definition glob_avg (df : list Row) (state : State) : Q :=
  let d := get_data df state false false false false in
  if negb (is_empty d) then mean_score d else 0.

Definition highlight (sel : string) (labels : list string) : list Q :=
  map (fun x => if String.eqb x sel then 1 else 3 # 10) labels.

Definition time_chart (df : list Row) (state : State) : option BarFigure :=
  let d_time := time_chart_rows df state in
  let mode := view_mode state in
  if negb (is_empty d_time) then
    let col_group := match mode with
                     | Quarter => YearQuarterConcat
                     | Month => YearMonthConcat
                     end in
    let df_bar :=
      sort_stable (fun a b => String.leb (fst a) (fst b))
                  (groupby col_group mean_score d_time) in
    let opacities := map (fun _ => 1) df_bar in
    let opacities :=
      if neqb (time state) "All"
         && negb (ViewMode_eqb mode Month && PyStr.contains "Q" (time state))
      then highlight (time state) (map fst df_bar)
      else opacities in
    Some {| bars := df_bar;
            bar_opacity := Some opacities;
            bar_hline := glob_avg df state |}
  else None.

(** [sort_values("Score", ascending=False)]; lines of equal mean are kept
    in key order here. *)
Definition subject_chart (df : list Row) (state : State) : option BarFigure :=
  let d_sub := get_data df state false false false true in
  if negb (is_empty d_sub) then
    let df_bar :=
      sort_stable (fun a b => Qle_bool (snd b) (snd a))
                  (groupby SubjectName mean_score d_sub) in
    Some {| bars := df_bar;
            bar_opacity :=
              if neqb (subject state) "All"
              then Some (highlight (subject state) (map fst df_bar))
              else None;
            bar_hline := glob_avg df state |}
  else None.

(** *** update_dashboard *)

Definition status_text (state : State) : string :=
  "Filters | Grade: " ++ grade state ++ " | Level: " ++ level state
    ++ " | Time: " ++ time state ++ " | Sub: " ++ subject state.

Definition update_dashboard (w : World) : result World :=
  let d_kpi := get_data (df w) (state w) false false false false in
  k <- compute_kpis (df w) d_kpi ;;
  Ok {| df := df w;
        state := state w;
        ui := {| status_label := status_text (state w);
                 kpi_avg := avg_text k;
                 kpi_weighted := weighted_text k;
                 kpi_pass := pass_text k;
                 kpi_perfect := perfect_text k;
                 plot_grade := grade_chart (df w) (state w) d_kpi;
                 plot_level := level_chart (df w) (state w) d_kpi;
                 plot_time := time_chart (df w) (state w);
                 plot_subject := subject_chart (df w) (state w);
                 time_title_label := time_title (state w);
                 view_toggle := view_toggle (ui w);
                 refreshes := S (refreshes (ui w)) |} |}.

(** ** Event handlers *)

(** A clicked point: a dict from field names (['label'], ['x'], ...) to
    labels. *)
Definition Point : Type := list (string * string).

(** [e.args] of a [plotly_click] event: [None], or a dict whose entry
    ['points'], when there is one, lists the clicked points.  A dict is an
    association list read at the first entry of a key. *)
Definition Args : Type := option (list (string * list Point)).

Fixpoint has_key {V} (k : string) (d : list (string * V)) : bool :=
  match d with
  | [] => false
  | (k', _) :: d' => String.eqb k' k || has_key k d'
  end.

(** [d[k]] *)
Fixpoint getitem {V} (d : list (string * V)) (k : string) : result V :=
  match d with
  | [] => Raise (KeyError k)
  | (k', v) :: d' => if String.eqb k' k then Ok v else getitem d' k
  end.

(** [l[0]] *)
Definition first {A} (l : list A) : result A :=
  match l with
  | [] => Raise IndexError
  | x :: _ => Ok x
  end.

(** [e.args and 'points' in e.args] *)
Definition has_points (args : Args) : bool :=
  match args with
  | None => false
  | Some d => negb (is_empty d) && has_key "points" d
  end.

(** [e.args['points'][0][field]]; the handlers reach it only under
    [has_points], where [e.args] is a dict. *)
Definition clicked_field (args : Args) (field : string) : result string :=
  match args with
  | None => Raise TypeError
  | Some d =>
      points <- getitem d "points" ;;
      p <- first points ;;
      getitem p field
  end.

(** ['All' if current == clicked else clicked] *)
Definition toggle (current clicked : string) : string :=
  if String.eqb current clicked then "All" else clicked.

Definition set_grade (v : string) (s : State) : State :=
  {| grade := v; level := level s; time := time s; subject := subject s;
     view_mode := view_mode s |}.

Definition set_level (v : string) (s : State) : State :=
  {| grade := grade s; level := v; time := time s; subject := subject s;
     view_mode := view_mode s |}.

Definition set_time (v : string) (s : State) : State :=
  {| grade := grade s; level := level s; time := v; subject := subject s;
     view_mode := view_mode s |}.

Definition set_subject (v : string) (s : State) : State :=
  {| grade := grade s; level := level s; time := time s; subject := v;
     view_mode := view_mode s |}.

Definition set_view_mode (m : ViewMode) (s : State) : State :=
  {| grade := grade s; level := level s; time := time s; subject := subject s;
     view_mode := m |}.

Definition with_state (s : State) (w : World) : World :=
  {| df := df w; state := s; ui := ui w |}.

Definition set_view_toggle (m : ViewMode) (w : World) : World :=
  {| df := df w; state := state w;
     ui := {| status_label := status_label (ui w);
              kpi_avg := kpi_avg (ui w);
              kpi_weighted := kpi_weighted (ui w);
              kpi_pass := kpi_pass (ui w);
              kpi_perfect := kpi_perfect (ui w);
              plot_grade := plot_grade (ui w);
              plot_level := plot_level (ui w);
              plot_time := plot_time (ui w);
              plot_subject := plot_subject (ui w);
              time_title_label := time_title_label (ui w);
              view_toggle := m;
              refreshes := refreshes (ui w) |} |}.

Definition reset_filters (w : World) : result World :=
  let w := with_state initial_state w in
  let w := set_view_toggle Quarter w in
  update_dashboard w.

Definition handle_click_grade (args : Args) (w : World) : result World :=
  if has_points args then
    clicked <- clicked_field args "label" ;;
    let w := with_state
               (set_grade (toggle (grade (state w)) clicked) (state w)) w in
    update_dashboard w
  else Ok w.

Definition handle_click_level (args : Args) (w : World) : result World :=
  if has_points args then
    clicked <- clicked_field args "label" ;;
    let w := with_state
               (set_level (toggle (level (state w)) clicked) (state w)) w in
    update_dashboard w
  else Ok w.

(** [clicked[:7]] when [len(clicked) > 7 and clicked[4] == '-'].  A label
    is always a [str] here, so the [isinstance] test holds. *)
Definition truncate_date (clicked : string) : string :=
  if Nat.ltb 7 (String.length clicked)
     && match String.get 4 clicked with
        | Some c => Ascii.eqb c "-"
        | None => false
        end
  then String.substring 0 7 clicked
  else clicked.

Definition handle_click_time (args : Args) (w : World) : result World :=
  if has_points args then
    clicked <- clicked_field args "x" ;;
    let clicked := truncate_date clicked in
    let w :=
      match view_mode (state w) with
      | Quarter =>
          let w := with_state (set_time clicked (state w)) w in
          let w := with_state (set_view_mode Month (state w)) w in
          set_view_toggle Month w
      | Month =>
          with_state (set_time (toggle (time (state w)) clicked) (state w)) w
      end in
    update_dashboard w
  else Ok w.

Definition handle_click_subject (args : Args) (w : World) : result World :=
  if has_points args then
    clicked <- clicked_field args "x" ;;
    let w := with_state
               (set_subject (toggle (subject (state w)) clicked) (state w)) w in
    update_dashboard w
  else Ok w.

Definition on_view_change (value : ViewMode) (w : World) : result World :=
  update_dashboard (with_state (set_view_mode value (state w)) w).

(** The events of a session. *)
Inductive Event : Type :=
| GradeClicked (args : Args)
| LevelClicked (args : Args)
| TimeClicked (args : Args)
| SubjectClicked (args : Args)
| ViewModeToggled (value : ViewMode)
| ResetRequested.

(** One event.  The toggle widget takes its new value, runs its
    [on_change] callback and then [on_view_change]. *)
Definition dispatch (ev : Event) (w : World) : result World :=
  match ev with
  | GradeClicked args => handle_click_grade args w
  | LevelClicked args => handle_click_level args w
  | TimeClicked args => handle_click_time args w
  | SubjectClicked args => handle_click_subject args w
  | ViewModeToggled value =>
      w <- update_dashboard (set_view_toggle value w) ;;
      on_view_change value w
  | ResetRequested => reset_filters w
  end.

(** A handler that raises has written nothing yet (the clicked label is
    read before the state is assigned), so the session goes on from the
    world it had. *)
Definition step (w : World) (ev : Event) : World :=
  match dispatch ev w with
  | Ok w' => w'
  | Raise _ => w
  end.

Definition run (evs : list Event) (w : World) : World :=
  fold_left step evs w.

(** The session as [index()] leaves it: the first refresh has run. *)
Definition start (df : list Row) : result World :=
  update_dashboard {| df := df; state := initial_state; ui := initial_ui |}.

(** ** The class of app_comment.py

    [Dashboard.get_data], the chart methods and the handlers have the text
    of the functions above with [self.state] for [state].  [render_kpis]
    computes the two rates as means of boolean series. *)

Module Dashboard.

(** [(series == v).mean()]: the mean of a boolean series, [True] as 1. *)
Definition bool_mean (l : list bool) : Q :=
  mean (map (fun b : bool => if b then 1 else 0) l).

Definition pass_rate (d_kpi : list Row) : Q :=
  bool_mean (map (fun r => String.eqb (PassedScore r) "Pass") d_kpi) * 100.

Definition perfect_rate (df d_kpi : list Row) : Q :=
  let t := target df in
  bool_mean (map (fun r => Qeq_bool (Score r) t) d_kpi) * 100.

Definition render_kpis (df : list Row) (state : State) : result Kpis :=
  let d_kpi := get_data df state false false false false in
  if is_empty d_kpi then
    Ok {| avg_text := "0.00"; weighted_text := "0.00%";
          pass_text := "0.00%"; perfect_text := "0.0%" |}
  else
    let avg := PyStr.fmt_f 2 (mean_score d_kpi) in
    v <- val_w d_kpi ;;
    let weighted := PyStr.fmt_f 2 (weighted_display v) ++ "%" in
    let pass := PyStr.fmt_f 2 (pass_rate d_kpi) ++ "%" in
    let perfect := PyStr.fmt_f 1 (perfect_rate df d_kpi) ++ "%" in
    Ok {| avg_text := avg; weighted_text := weighted;
          pass_text := pass; perfect_text := perfect |}.

End Dashboard.

(** ** The KPI block over the machine's arithmetic

    Every int64 and every finite double is a rational, so a column and a
    computed number are values of [Q], and the comparisons of the code
    ([>], [<=], [==], [max]) are those of [Q].  What the machine computes
    from such values is not the exact result: a sum of an int64 column may
    wrap and a sum of doubles rounds, a quotient and a product are rounded,
    and the text of a double is that of its binary value.  These operations
    are the fields of a [Machine]; the KPI block below is the one of
    [update_dashboard] (and of [Dashboard.render_kpis]) with them. *)

Record Machine : Type := mkMachine {
  m_sum : list Q -> Q;        (* Series.sum() *)
  m_mean : list Q -> Q;       (* Series.mean() *)
  m_div : Q -> Q -> Q;        (* x / y, y not zero *)
  m_mul : Q -> Q -> Q;        (* x * y *)
  m_fmt : nat -> Q -> string  (* f"{x:.{d}f}" *)
}.

(** The arithmetic without rounding, which the definitions above use. *)
Definition exact : Machine :=
  {| m_sum := Qsum; m_mean := mean; m_div := Qdiv; m_mul := Qmult;
     m_fmt := PyStr.fmt_f |}.

Definition truediv_on (M : Machine) (a b : Q) : result Q :=
  if Qeq_bool b 0 then Raise ZeroDivisionError else Ok (m_div M a b).

Definition val_w_on (M : Machine) (d_kpi : list Row) : result Q :=
  let w_sum := m_sum M (map Weight d_kpi) in
  if Qgtb w_sum 0 then truediv_on M (m_sum M (map WeightedScore d_kpi)) w_sum
  else Ok 0.

Definition weighted_display_on (M : Machine) (val_w : Q) : Q :=
  if Qle_bool val_w 1 then m_mul M val_w 100 else val_w.

Definition pass_rate_on (M : Machine) (d_kpi : list Row) : result Q :=
  q <- truediv_on M (len (where_eq PassedScore "Pass" d_kpi)) (len d_kpi) ;;
  Ok (m_mul M q 100).

Definition perfect_rate_on (M : Machine) (df d_kpi : list Row) : result Q :=
  let t := target df in
  q <- truediv_on M (len (filter (fun r => Qeq_bool (Score r) t) d_kpi))
                    (len d_kpi) ;;
  Ok (m_mul M q 100).

(** The KPI block of [update_dashboard] in app.py: the four texts it
    sets. *)
Definition kpis_on (M : Machine) (df d_kpi : list Row) : result Kpis :=
  if is_empty d_kpi then
    Ok {| avg_text := "0.00"; weighted_text := "0.00%";
          pass_text := "0.00%"; perfect_text := "0.0%" |}
  else
    let avg := m_fmt M 2 (m_mean M (map Score d_kpi)) in
    v <- val_w_on M d_kpi ;;
    let weighted := m_fmt M 2 (weighted_display_on M v) ++ "%" in
    p <- pass_rate_on M d_kpi ;;
    let pass := m_fmt M 2 p ++ "%" in
    f <- perfect_rate_on M df d_kpi ;;
    let perfect := m_fmt M 1 f ++ "%" in
    Ok {| avg_text := avg; weighted_text := weighted;
          pass_text := pass; perfect_text := perfect |}.

(** The booleans of a series as numbers. *)
Definition as_number (b : bool) : Q := if b then 1 else 0.

(** [Dashboard.render_kpis] of app_comment.py: the four texts it sets. *)
Definition render_kpis_on (M : Machine) (df : list Row) (state : State)
  : result Kpis :=
  let d_kpi := get_data df state false false false false in
  if is_empty d_kpi then
    Ok {| avg_text := "0.00"; weighted_text := "0.00%";
          pass_text := "0.00%"; perfect_text := "0.0%" |}
  else
    let avg := m_fmt M 2 (m_mean M (map Score d_kpi)) in
    v <- val_w_on M d_kpi ;;
    let weighted := m_fmt M 2 (weighted_display_on M v) ++ "%" in
    let pass_rate :=
      m_mul M (m_mean M (map (fun r => as_number
                                         (String.eqb (PassedScore r) "Pass"))
                             d_kpi)) 100 in
    let pass := m_fmt M 2 pass_rate ++ "%" in
    let t := target df in
    let perfect_rate :=
      m_mul M (m_mean M (map (fun r => as_number (Qeq_bool (Score r) t))
                             d_kpi)) 100 in
    let perfect := m_fmt M 1 perfect_rate ++ "%" in
    Ok {| avg_text := avg; weighted_text := weighted;
          pass_text := pass; perfect_text := perfect |}.

(** ** The handlers, statement by statement

    The handlers above return the world they end in, or the exception.
    Here each one is the sequence of its statements over the session: a
    statement may read the payload, assign to [state] or to a widget, or
    refresh; an exception leaves the session as the statements before it
    made it. *)

Module Stepwise.

Definition Proc (A : Type) : Type := World -> result A * World.

Definition ret {A} (a : A) : Proc A := fun w => (Ok a, w).

Definition seq {A B} (m : Proc A) (k : A -> Proc B) : Proc B :=
  fun w =>
    match m w with
    | (Ok a, w') => k a w'
    | (Raise e, w') => (Raise e, w')
    end.

(** An expression that may raise and writes nothing. *)
Definition eval {A} (r : result A) : Proc A := fun w => (r, w).

(** An assignment: [state[key] = v], [view_toggle.value = v]. *)
Definition assign (f : World -> World) : Proc unit := fun w => (Ok tt, f w).

(** The call [update_dashboard()]. *)
Definition refresh : Proc unit :=
  fun w =>
    match update_dashboard w with
    | Ok w' => (Ok tt, w')
    | Raise e => (Raise e, w)
    end.

Definition handle_click_grade (args : Args) : Proc unit :=
  fun w =>
    if has_points args then
      seq (eval (clicked_field args "label")) (fun clicked =>
      seq (assign (fun w => with_state
                     (set_grade (toggle (grade (state w)) clicked) (state w)) w))
          (fun _ => refresh)) w
    else ret tt w.

Definition handle_click_level (args : Args) : Proc unit :=
  fun w =>
    if has_points args then
      seq (eval (clicked_field args "label")) (fun clicked =>
      seq (assign (fun w => with_state
                     (set_level (toggle (level (state w)) clicked) (state w)) w))
          (fun _ => refresh)) w
    else ret tt w.

Definition handle_click_time (args : Args) : Proc unit :=
  fun w =>
    if has_points args then
      seq (eval (clicked_field args "x")) (fun clicked =>
      let clicked := truncate_date clicked in
      seq (fun w =>
             match view_mode (state w) with
             | Quarter =>
                 seq (assign (fun w => with_state (set_time clicked (state w)) w))
                     (fun _ =>
                 seq (assign (fun w => with_state
                                (set_view_mode Month (state w)) w))
                     (fun _ => assign (set_view_toggle Month))) w
             | Month =>
                 assign (fun w => with_state
                           (set_time (toggle (time (state w)) clicked)
                                     (state w)) w) w
             end)
          (fun _ => refresh)) w
    else ret tt w.

Definition handle_click_subject (args : Args) : Proc unit :=
  fun w =>
    if has_points args then
      seq (eval (clicked_field args "x")) (fun clicked =>
      seq (assign (fun w => with_state
                     (set_subject (toggle (subject (state w)) clicked)
                                  (state w)) w))
          (fun _ => refresh)) w
    else ret tt w.

Definition reset_filters : Proc unit :=
  seq (assign (with_state initial_state)) (fun _ =>
  seq (assign (set_view_toggle Quarter)) (fun _ => refresh)).

Definition on_view_change (value : ViewMode) : Proc unit :=
  seq (assign (fun w => with_state (set_view_mode value (state w)) w))
      (fun _ => refresh).

(** One event; the toggle takes its value, runs its [on_change] callback
    and then [on_view_change]. *)
Definition process (ev : Event) : Proc unit :=
  match ev with
  | GradeClicked args => handle_click_grade args
  | LevelClicked args => handle_click_level args
  | TimeClicked args => handle_click_time args
  | SubjectClicked args => handle_click_subject args
  | ViewModeToggled value =>
      seq (assign (set_view_toggle value)) (fun _ =>
      seq refresh (fun _ => on_view_change value))
  | ResetRequested => reset_filters
  end.

(** The session after a list of events, each from where the one before
    left it, returned or raised. *)
Definition run (evs : list Event) (w : World) : World :=
  fold_left (fun w ev => snd (process ev w)) evs w.

End Stepwise.

(** ** Vocabulary of the properties *)

(** The four texts of an empty view. *)
Definition zero_kpis : Kpis :=
  {| avg_text := "0.00"; weighted_text := "0.00%";
     pass_text := "0.00%"; perfect_text := "0.0%" |}.

(** A sheet of three records, without the optional columns. *)
Definition sample_sheet : FactSheet :=
  {| has_Weight := false;
     has_WeightedScore := false;
     records :=
       [ mkRawRow 1 "Grade 9" "Math" 2023 1 1 90 1 90;
         mkRawRow 2 "Grade 9" "Physics" 2023 1 3 60 1 60;
         mkRawRow 3 "Grade 10" "Math" 2023 2 4 40 1 40 ] |}.

Definition sample_df : list Row := prepare sample_sheet.

Definition sample_world (st : State) : World :=
  {| df := sample_df; state := st; ui := initial_ui |}.

(** [m] is the greatest value of the column [l]. *)
Definition is_maximum (m : Q) (l : list Q) : Prop :=
  (exists x, In x l /\ x == m) /\ forall x, In x l -> x <= m.

(** The payload of a click on one point whose [field] holds [label]. *)
Definition click (field label : string) : Args :=
  Some [("points", [[(field, label)]])].

(** The three dimensions whose charts toggle their filter. *)
Inductive Dimension : Type := DGrade | DLevel | DSubject.

Definition filter_of (d : Dimension) (s : State) : string :=
  match d with
  | DGrade => grade s
  | DLevel => level s
  | DSubject => subject s
  end.

Definition handler_of (d : Dimension) : Args -> World -> result World :=
  match d with
  | DGrade => handle_click_grade
  | DLevel => handle_click_level
  | DSubject => handle_click_subject
  end.

(** The field of the clicked point that each handler reads. *)
Definition field_of (d : Dimension) : string :=
  match d with
  | DGrade => "label"
  | DLevel => "label"
  | DSubject => "x"
  end.

(** Month mode with [label] as time filter and no other filter. *)
Definition month_state (label : string) : State :=
  {| grade := "All"; level := "All"; time := label; subject := "All";
     view_mode := Month |}.

(** The four charts that take clicks. *)
Inductive Chart : Type := GradeChart | LevelChart | TimeChart | SubjectChart.

Definition click_handler (c : Chart) : Args -> World -> result World :=
  match c with
  | GradeChart => handle_click_grade
  | LevelChart => handle_click_level
  | TimeChart => handle_click_time
  | SubjectChart => handle_click_subject
  end.

Definition click_field (c : Chart) : string :=
  match c with
  | GradeChart | LevelChart => "label"
  | TimeChart | SubjectChart => "x"
  end.

Definition click_event (c : Chart) (args : Args) : Event :=
  match c with
  | GradeChart => GradeClicked args
  | LevelChart => LevelClicked args
  | TimeChart => TimeClicked args
  | SubjectChart => SubjectClicked args
  end.

(** [e.args] is [None], the empty dict, or a dict without ['points']. *)
Definition missing_points (args : Args) : Prop :=
  match args with
  | None => True
  | Some d => d = [] \/ has_key "points" d = false
  end.

(** A ['points'] entry that lists no point. *)
Definition no_point : Args := Some [("points", [])].

(** [h'] keeps every frame of [h] and holds, at the new reference [r], the
    frame [f]. *)
Definition fresh_in (h : Frames.Heap) (f : list Row)
  (p : Frames.Ref * Frames.Heap) : Prop :=
  let '(r, h') := p in
  (List.length h <= r < List.length h')%nat
  /\ Frames.read h' r = f
  /\ forall x, (x < List.length h)%nat -> Frames.read h' x = Frames.read h x.

(** The grade aggregation of scores 90, 60 and 40. *)
Definition five_buckets : list (string * nat) :=
  [("A", 1%nat); ("B", 0%nat); ("C", 0%nat); ("D", 1%nat); ("F", 1%nat)].

(** ** Vocabulary of the further properties *)

(** The row passes every filter that is set and not ignored. *)
Definition passes (st : State) (ignore_grade ignore_level ignore_time
  ignore_subject : bool) (r : Row) : bool :=
  (ignore_grade || String.eqb (grade st) "All"
   || String.eqb (Assessment_Grade r) (grade st))
  && (ignore_level || String.eqb (level st) "All"
      || String.eqb (GradeLevel r) (level st))
  && (ignore_subject || String.eqb (subject st) "All"
      || String.eqb (SubjectName r) (subject st))
  && (ignore_time || String.eqb (time st) "All"
      || if PyStr.contains "Q" (time st)
         then String.eqb (YearQuarterConcat r) (time st)
         else String.eqb (YearMonthConcat r) (time st)).

(** The columns the preparation derives, as they stand in a row of a table
    prepared from the sheet [s]. *)
Definition derived (s : FactSheet) (r : Row) : Prop :=
  Assessment_Grade r = get_grade (Score r)
  /\ PassedScore r = passed_score (Score r)
  /\ (has_Weight s = false -> Weight r = 1)
  /\ (has_WeightedScore s = false -> WeightedScore r = Score r * Weight r).

(** The order [sort_values(['GradeLevel', 'Assessment_Grade'])] puts
    between neighbours. *)
Definition row_le (a b : Row) : Prop := row_leb a b = true.

(** The order of the keys of a [groupby]: strictly ascending. *)
Definition key_lt (a b : string) : Prop := String.compare a b = Lt.

(** The order of the subject bars: means descending. *)
Definition mean_ge (a b : string * Q) : Prop := snd b <= snd a.

(** The page is the refresh of the present state: the status line, the
    four KPI labels, the four figures and the title are those computed from
    [df] and [state], and the toggle widget shows the view mode. *)
Definition shows (w : World) : Prop :=
  let d_kpi := get_data (df w) (state w) false false false false in
  status_label (ui w) = status_text (state w)
  /\ compute_kpis (df w) d_kpi
     = Ok {| avg_text := kpi_avg (ui w); weighted_text := kpi_weighted (ui w);
             pass_text := kpi_pass (ui w);
             perfect_text := kpi_perfect (ui w) |}
  /\ plot_grade (ui w) = grade_chart (df w) (state w) d_kpi
  /\ plot_level (ui w) = level_chart (df w) (state w) d_kpi
  /\ plot_time (ui w) = time_chart (df w) (state w)
  /\ plot_subject (ui w) = subject_chart (df w) (state w)
  /\ time_title_label (ui w) = time_title (state w)
  /\ view_toggle (ui w) = view_mode (state w).

(** Two pages that differ at most in the count of refreshes. *)
Definition same_page (u u' : UI) : Prop :=
  status_label u = status_label u'
  /\ kpi_avg u = kpi_avg u' /\ kpi_weighted u = kpi_weighted u'
  /\ kpi_pass u = kpi_pass u' /\ kpi_perfect u = kpi_perfect u'
  /\ plot_grade u = plot_grade u' /\ plot_level u = plot_level u'
  /\ plot_time u = plot_time u' /\ plot_subject u = plot_subject u'
  /\ time_title_label u = time_title_label u'
  /\ view_toggle u = view_toggle u'.

(** What an event may change in the filter state. *)
Definition scope (ev : Event) (s s' : State) : Prop :=
  match ev with
  | GradeClicked _ =>
      level s' = level s /\ time s' = time s /\ subject s' = subject s
      /\ view_mode s' = view_mode s
  | LevelClicked _ =>
      grade s' = grade s /\ time s' = time s /\ subject s' = subject s
      /\ view_mode s' = view_mode s
  | SubjectClicked _ =>
      grade s' = grade s /\ level s' = level s /\ time s' = time s
      /\ view_mode s' = view_mode s
  | TimeClicked _ =>
      grade s' = grade s /\ level s' = level s /\ subject s' = subject s
      /\ (view_mode s' = Month \/ s' = s)
  | ViewModeToggled value =>
      grade s' = grade s /\ level s' = level s /\ time s' = time s
      /\ subject s' = subject s /\ view_mode s' = value
  | ResetRequested => s' = initial_state
  end.

(** The categories of the chart of a dimension: the slices with their
    counts, or the bars with their means. *)
Definition own_chart_kept (d : Dimension) (u u' : UI) : Prop :=
  match d with
  | DGrade =>
      option_map pie_slices (plot_grade u')
      = option_map pie_slices (plot_grade u)
  | DLevel =>
      option_map pie_slices (plot_level u')
      = option_map pie_slices (plot_level u)
  | DSubject =>
      option_map bars (plot_subject u') = option_map bars (plot_subject u)
  end.

(** A sheet whose single record weighs nothing. *)
Definition weightless_sheet : FactSheet :=
  {| has_Weight := true;
     has_WeightedScore := false;
     records := [mkRawRow 1 "Grade 9" "Math" 2023 1 1 90 0 0] |}.

(** What a bar figure shows of the rows it is drawn from: nothing when
    there is no row, otherwise one bar per label of the column [col], in
    ascending label order, at the mean score of the rows of that label. *)
Definition draws (col : Row -> string) (rows : list Row)
  (plot : option BarFigure) : Prop :=
  match plot with
  | None => rows = []
  | Some fig => rows <> [] /\ bars fig = groupby col mean_score rows
  end.

(** Every bar at full opacity. *)
Definition opaque_bars (plot : option BarFigure) : Prop :=
  forall fig, plot = Some fig ->
              bar_opacity fig = Some (map (fun _ => 1) (bars fig)).

(** The bar of the label [sel] at full opacity, the others dimmed. *)
Definition highlights (sel : string) (plot : option BarFigure) : Prop :=
  forall fig, plot = Some fig ->
              bar_opacity fig = Some (highlight sel (map fst (bars fig))).

(** A sheet on the 0-1 scale: scores 1/2 and 1, no weight columns. *)
Definition unit_sheet : FactSheet :=
  {| has_Weight := false;
     has_WeightedScore := false;
     records :=
       [ mkRawRow 1 "Grade 9" "Math" 2023 1 1 (1 # 2) 1 (1 # 2);
         mkRawRow 2 "Grade 9" "Physics" 2023 1 3 1 1 1 ] |}.

(** A sheet on the 0-100 scale with two perfect scores in four. *)
Definition hundred_sheet : FactSheet :=
  {| has_Weight := false;
     has_WeightedScore := false;
     records :=
       [ mkRawRow 1 "Grade 9" "Math" 2023 1 1 100 1 100;
         mkRawRow 2 "Grade 9" "Physics" 2023 1 3 60 1 60;
         mkRawRow 3 "Grade 10" "Math" 2023 2 4 100 1 100;
         mkRawRow 4 "Grade 10" "Physics" 2023 2 5 40 1 40 ] |}.

(** The statements of the click handler of a chart. *)
Definition click_proc (c : Chart) : Args -> Stepwise.Proc unit :=
  match c with
  | GradeChart => Stepwise.handle_click_grade
  | LevelChart => Stepwise.handle_click_level
  | TimeChart => Stepwise.handle_click_time
  | SubjectChart => Stepwise.handle_click_subject
  end.

(** The four figures of the page are drawn from the views of the present
    state: each is blank exactly when its view has no row; the grade
    figure has the counts per category and the row count of the fully
    filtered view at its centre; the level figure has the distinct students
    per level and those of the fully filtered view at its centre; the time
    figure has one bar per label of its rows; the subject figure has the
    bars of the grouping by subject, highest mean first. *)
Definition drawn (w : World) : Prop :=
  let d_kpi := get_data (df w) (state w) false false false false in
  let d_grade := get_data (df w) (state w) true false false false in
  let d_level := get_data (df w) (state w) false true false false in
  let d_sub := get_data (df w) (state w) false false false true in
  let col := match view_mode (state w) with
             | Quarter => YearQuarterConcat
             | Month => YearMonthConcat
             end in
  match plot_grade (ui w) with
  | None => d_grade = []
  | Some fig =>
      d_grade <> []
      /\ pie_slices fig = groupby_grade_count d_grade
      /\ pie_annotation fig = List.length d_kpi
  end
  /\ match plot_level (ui w) with
     | None => d_level = []
     | Some fig =>
         d_level <> []
         /\ pie_slices fig
            = groupby GradeLevel (fun g => nunique (map StudentID g)) d_level
         /\ pie_annotation fig = nunique (map StudentID d_kpi)
     end
  /\ draws col (time_chart_rows (df w) (state w)) (plot_time (ui w))
  /\ match plot_subject (ui w) with
     | None => d_sub = []
     | Some fig =>
         d_sub <> []
         /\ Permutation (bars fig) (groupby SubjectName mean_score d_sub)
         /\ Sorted mean_ge (bars fig)
     end.

(** * Properties *)

(** ** Numbers *)

Lemma len_cons_nonzero {A} (x : A) (l : list A) : Qeq_bool (len (x :: l)) 0 = false.
Proof.
  destruct (Qeq_bool (len (x :: l)) 0) eqn:E; [|reflexivity].
  apply Qeq_bool_iff in E. unfold len, Qeq in E.
  cbn [Qnum Qden inject_Z List.length] in E. lia.
Qed.

Lemma truediv_len {A} (a : Q) (x : A) (l : list A) :
  truediv a (len (x :: l)) = Ok (a / len (x :: l)).
Proof. unfold truediv. now rewrite len_cons_nonzero. Qed.

Lemma Qgtb_true (x y : Q) : Qgtb x y = true <-> y < x.
Proof.
  unfold Qgtb. rewrite negb_true_iff. split; intros H.
  - apply Qnot_le_lt. intros L. apply Qle_bool_iff in L. congruence.
  - destruct (Qle_bool x y) eqn:E; [|reflexivity].
    apply Qle_bool_iff in E. exfalso. exact (Qlt_not_le _ _ H E).
Qed.

Lemma Qgtb_false (x y : Q) : Qgtb x y = false <-> ~ y < x.
Proof.
  rewrite <- Qgtb_true. destruct (Qgtb x y); split; congruence.
Qed.

Lemma Qle_bool_false (x y : Q) : Qle_bool x y = false <-> ~ x <= y.
Proof.
  rewrite <- Qle_bool_iff. destruct (Qle_bool x y); split; congruence.
Qed.

Lemma truediv_pos (a b : Q) : 0 < b -> truediv a b = Ok (a / b).
Proof.
  intros H. unfold truediv.
  destruct (Qeq_bool b 0) eqn:E; [|reflexivity].
  apply Qeq_bool_iff in E. rewrite E in H. now apply Qlt_irrefl in H.
Qed.

(** ** The KPI computation never raises *)

Lemma val_w_total (d : list Row) : exists v, val_w d = Ok v.
Proof.
  unfold val_w. destruct (Qgtb _ 0) eqn:E.
  - apply Qgtb_true in E. rewrite (truediv_pos _ _ E). eauto.
  - eauto.
Qed.

Lemma compute_kpis_total (df d : list Row) : exists k, compute_kpis df d = Ok k.
Proof.
  unfold compute_kpis. destruct d as [|r d]; cbn [is_empty]; [eauto|].
  destruct (val_w_total (r :: d)) as [v ->]. cbn [bind].
  unfold pass_rate, perfect_rate. rewrite !truediv_len. cbn [bind]. eauto.
Qed.

Lemma update_dashboard_total (w : World) :
  exists u, update_dashboard w = Ok {| df := df w; state := state w; ui := u |}.
Proof.
  unfold update_dashboard.
  destruct (compute_kpis_total (df w)
              (get_data (df w) (state w) false false false false)) as [k ->].
  cbn [bind]. eauto.
Qed.

Lemma update_dashboard_inv (w : World) :
  exists w', update_dashboard w = Ok w'
             /\ df w' = df w
             /\ state w' = state w
             /\ view_toggle (ui w') = view_toggle (ui w)
             /\ refreshes (ui w') = S (refreshes (ui w)).
Proof.
  unfold update_dashboard.
  destruct (compute_kpis_total (df w)
              (get_data (df w) (state w) false false false false)) as [k ->].
  cbn [bind]. eexists. split; [reflexivity|]. now cbn.
Qed.

Lemma update_dashboard_frame (w w' : World) :
  update_dashboard w = Ok w' -> df w' = df w /\ state w' = state w.
Proof.
  destruct (update_dashboard_total w) as [u ->]. intros [= <-]. now split.
Qed.

(** ** Ignoring every dimension *)

(** C1.  For every table and every filter state, [get_data] called with the
    four ignore flags set returns the table itself, whatever the four
    filters and the view mode hold. *)
Theorem get_data_ignore_all (df : list Row) (st : State) :
  get_data df st true true true true = df.
Proof. reflexivity. Qed.

(** ** Formatting depends on the value only *)

Lemma round_half_even_compat (x y : Q) :
  x == y -> PyStr.round_half_even x = PyStr.round_half_even y.
Proof.
  intros H. unfold PyStr.round_half_even.
  rewrite (Qfloor_comp _ _ H).
  assert (E : x - inject_Z (Qfloor y) == y - inject_Z (Qfloor y))
    by now rewrite H.
  now rewrite (Qcompare_comp _ _ E _ _ (Qeq_refl (1 # 2))).
Qed.

Lemma fmt_f_compat (d : nat) (x y : Q) :
  x == y -> PyStr.fmt_f d x = PyStr.fmt_f d y.
Proof.
  intros H. unfold PyStr.fmt_f.
  assert (E : Qabs x * inject_Z (10 ^ Z.of_nat d)
              == Qabs y * inject_Z (10 ^ Z.of_nat d)) by now rewrite H.
  rewrite (round_half_even_compat _ _ E).
  destruct (Qlt_le_dec x 0) as [Lx|Lx], (Qlt_le_dec y 0) as [Ly|Ly];
    try reflexivity; exfalso.
  - rewrite H in Lx. exact (Qlt_not_le _ _ Lx Ly).
  - rewrite <- H in Ly. exact (Qlt_not_le _ _ Ly Lx).
Qed.

(** ** The two ways of computing a rate agree *)

Lemma len_cons {A} (x : A) (l : list A) : len (x :: l) == 1 + len l.
Proof.
  unfold len. cbn [List.length].
  rewrite Nat2Z.inj_succ, <- Z.add_1_l, inject_Z_plus. reflexivity.
Qed.

Lemma len_map {A B} (f : A -> B) (l : list A) : len (map f l) = len l.
Proof. unfold len. now rewrite length_map. Qed.

Lemma indicator_sum {A} (f : A -> bool) (l : list A) :
  Qsum (map (fun b : bool => if b then 1 else 0) (map f l)) == len (filter f l).
Proof.
  induction l as [|x l IH]; cbn [map filter Qsum fold_right].
  - reflexivity.
  - fold (Qsum (map (fun b : bool => if b then 1 else 0) (map f l))).
    rewrite IH. destruct (f x).
    + now rewrite len_cons.
    + apply Qplus_0_l.
Qed.

Lemma bool_mean_rate {A} (f : A -> bool) (l : list A) :
  Dashboard.bool_mean (map f l) * 100 == len (filter f l) / len l * 100.
Proof.
  unfold Dashboard.bool_mean, mean.
  now rewrite indicator_sum, !len_map.
Qed.

Lemma render_kpis_agree (df : list Row) (st : State) :
  Dashboard.render_kpis df st
  = compute_kpis df (get_data df st false false false false).
Proof.
  unfold Dashboard.render_kpis, compute_kpis.
  destruct (get_data df st false false false false) as [|r d];
    cbn [is_empty]; [reflexivity|].
  destruct (val_w (r :: d)) as [v|e]; cbn [bind]; [|reflexivity].
  unfold pass_rate, perfect_rate. rewrite !truediv_len. cbn [bind].
  unfold Dashboard.pass_rate, Dashboard.perfect_rate, where_eq.
  rewrite (fmt_f_compat 2 _ _ (bool_mean_rate _ (r :: d))).
  rewrite (fmt_f_compat 1 _ _ (bool_mean_rate _ (r :: d))).
  reflexivity.
Qed.

(** ** KPIs *)

(** C4.  When the fully filtered view holds no row, the refresh completes
    without raising and the four KPI labels read 0.00, 0.00%, 0.00% and
    0.0%; the class's [render_kpis] returns the same four texts.  A
    division by zero would surface as [Raise ZeroDivisionError]. *)
Theorem kpis_of_empty_view (w : World) :
  get_data (df w) (state w) false false false false = [] ->
  (exists w', update_dashboard w = Ok w'
     /\ kpi_avg (ui w') = "0.00"
     /\ kpi_weighted (ui w') = "0.00%"
     /\ kpi_pass (ui w') = "0.00%"
     /\ kpi_perfect (ui w') = "0.0%")
  /\ Dashboard.render_kpis (df w) (state w) = Ok zero_kpis.
Proof.
  intros E. split.
  - unfold update_dashboard. rewrite E. cbn. eexists. split; [reflexivity|].
    cbn. repeat split.
  - rewrite render_kpis_agree, E. reflexivity.
Qed.

Lemma kpis_of_empty_view_witness :
  (exists w', update_dashboard (sample_world (set_grade "B" initial_state)) = Ok w'
     /\ kpi_avg (ui w') = "0.00"
     /\ kpi_weighted (ui w') = "0.00%"
     /\ kpi_pass (ui w') = "0.00%"
     /\ kpi_perfect (ui w') = "0.0%")
  /\ Dashboard.render_kpis sample_df (set_grade "B" initial_state) = Ok zero_kpis.
Proof.
  apply (kpis_of_empty_view (sample_world (set_grade "B" initial_state))).
  reflexivity.
Defined.


(** ** The maximum of a column *)

Lemma Qmax_cases (a b : Q) :
  (Qmax a b = a /\ b <= a) \/ (Qmax a b = b /\ a <= b).
Proof.
  unfold Qmax. destruct (Qle_bool a b) eqn:E.
  - right. split; [reflexivity|]. now apply Qle_bool_iff.
  - left. split; [reflexivity|]. apply Qle_bool_false in E.
    apply Qlt_le_weak. now apply Qnot_le_lt.
Qed.

Lemma fold_max_spec (l : list Q) (a : Q) :
  let m := fold_left Qmax l a in
  In m (a :: l) /\ a <= m /\ forall x, In x l -> x <= m.
Proof.
  revert a. induction l as [|y l IH]; intros a; cbn [fold_left].
  - cbn. repeat split; [now left | apply Qle_refl | tauto].
  - destruct (IH (Qmax a y)) as (I & L & F).
    destruct (Qmax_cases a y) as [[E Ly]|[E La]]; rewrite E in *.
    + repeat split.
      * destruct I as [I|I]; [now left | right; now right].
      * exact L.
      * intros x [<-|Hx]; [now apply Qle_trans with a | now apply F].
    + repeat split.
      * right. destruct I as [I|I]; [now left | now right].
      * now apply Qle_trans with y.
      * intros x [<-|Hx]; [exact L | now apply F].
Qed.

Lemma series_max_is_maximum (l : list Q) :
  l <> [] -> is_maximum (series_max l) l.
Proof.
  destruct l as [|a l]; [congruence|]. intros _. cbn [series_max].
  destruct (fold_max_spec l a) as (I & L & F). split.
  - exists (fold_left Qmax l a). split; [exact I | reflexivity].
  - intros x [<-|Hx]; [exact L | now apply F].
Qed.

Lemma is_maximum_unique (m m' : Q) (l : list Q) :
  is_maximum m l -> is_maximum m' l -> m == m'.
Proof.
  intros [(x & Ix & Ex) U] [(x' & Ix' & Ex') U'].
  apply Qle_antisym.
  - rewrite <- Ex. now apply U'.
  - rewrite <- Ex'. now apply U.
Qed.

Lemma get_data_nil (st : State) (a b c d : bool) : get_data [] st a b c d = [].
Proof.
  unfold get_data, where_eq.
  repeat match goal with
         | |- context [if ?x then _ else _] => destruct x
         end; reflexivity.
Qed.


(** ** Labels *)

Lemma contains_app (c : ascii) (a b : string) :
  PyStr.contains c (a ++ b) = PyStr.contains c a || PyStr.contains c b.
Proof.
  induction a as [|x a IH]; cbn [append PyStr.contains]; [reflexivity|].
  now rewrite IH, orb_assoc.
Qed.

Lemma get_contains (s : string) (n : nat) (c : ascii) :
  String.get n s = Some c -> PyStr.contains c s = true.
Proof.
  revert n. induction s as [|x s IH]; intros n; cbn [String.get]; [discriminate|].
  destruct n as [|n]; cbn [PyStr.contains].
  - intros [= ->]. now rewrite Ascii.eqb_refl.
  - intros H. rewrite (IH _ H). apply orb_true_r.
Qed.

Lemma digits_no_dash (d : Decimal.uint) :
  PyStr.contains "-" (NilEmpty.string_of_uint d) = false.
Proof. induction d; cbn; auto. Qed.

Lemma uint_no_dash (d : Decimal.uint) :
  PyStr.contains "-" (NilZero.string_of_uint d) = false.
Proof. destruct d; try apply digits_no_dash. reflexivity. Qed.

Lemma str_nonneg_no_dash (n : Z) :
  (0 <= n)%Z -> PyStr.contains "-" (PyStr.str n) = false.
Proof.
  intros H. unfold PyStr.str. destruct n as [|p|p]; cbn [Z.to_int NilZero.string_of_int].
  - reflexivity.
  - apply uint_no_dash.
  - lia.
Qed.

(** [str(n)] carries a dash at its head or nowhere. *)
Lemma str_shape (n : Z) :
  exists t, PyStr.contains "-" t = false
            /\ (PyStr.str n = t \/ PyStr.str n = String "-" t).
Proof.
  unfold PyStr.str. destruct n as [|p|p]; cbn [Z.to_int NilZero.string_of_int].
  - exists "0". split; [reflexivity | now left].
  - eexists. split; [apply uint_no_dash | now left].
  - eexists. split; [apply uint_no_dash | now right].
Qed.

Lemma quarter_label_has_Q (year q : Z) :
  PyStr.contains "Q" (year_quarter_concat year q) = true.
Proof.
  unfold year_quarter_concat. rewrite !contains_app. cbn.
  now rewrite !orb_true_r.
Qed.

Lemma has_Q_not_All (s : string) : PyStr.contains "Q" s = true -> neqb s "All" = true.
Proof.
  intros H. unfold neqb. destruct (String.eqb s "All") eqn:E; [|reflexivity].
  apply String.eqb_eq in E. subst s. discriminate.
Qed.

Lemma has_dash_not_All (s : string) : PyStr.contains "-" s = true -> neqb s "All" = true.
Proof.
  intros H. unfold neqb. destruct (String.eqb s "All") eqn:E; [|reflexivity].
  apply String.eqb_eq in E. subst s. discriminate.
Qed.

(** A quarter label of a non-negative quarter number is not taken for a
    full date: its fifth character is never a dash. *)
Lemma truncate_date_quarter_label (year q : Z) :
  (0 <= q)%Z ->
  truncate_date (year_quarter_concat year q) = year_quarter_concat year q.
Proof.
  intros Hq. unfold truncate_date.
  destruct (String.get 4 (year_quarter_concat year q)) as [c|] eqn:G;
    [|now rewrite andb_false_r].
  destruct (Ascii.eqb c "-") eqn:E; [|now rewrite andb_false_r].
  exfalso. apply Ascii.eqb_eq in E. subst c.
  unfold year_quarter_concat in G.
  assert (T : PyStr.contains "-" (" " ++ ("Q" ++ PyStr.str q)) = false).
  { rewrite !contains_app, (str_nonneg_no_dash _ Hq). reflexivity. }
  destruct (str_shape year) as (t & Nt & [Et|Et]); rewrite Et in G.
  - apply get_contains in G. rewrite contains_app, Nt, T in G. discriminate.
  - change (String.get 3 (t ++ (" " ++ ("Q" ++ PyStr.str q))) = Some "-"%char)
      in G. apply get_contains in G.
    rewrite contains_app, Nt, T in G. discriminate.
Qed.

(** The bound on the quarter number is what keeps the label whole: a
    label built from a two-digit year and the number -100 is cut. *)
Example label_cut :
  truncate_date (year_quarter_concat 20 (-100)) = "20 Q-10".
Proof. reflexivity. Qed.

(** ** Drill-down *)

Lemma where_eq_In (col : Row -> string) (v : string) (d : list Row) (r : Row) :
  In r (where_eq col v d) <-> In r d /\ col r = v.
Proof.
  unfold where_eq. rewrite filter_In. now rewrite String.eqb_eq.
Qed.


(** ** Toggling *)

Lemma toggle_same (v : string) : toggle v v = "All".
Proof. unfold toggle. now rewrite String.eqb_refl. Qed.

Lemma toggle_other (c v : string) : c <> v -> toggle c v = v.
Proof.
  intros H. unfold toggle. destruct (String.eqb c v) eqn:E; [|reflexivity].
  now apply String.eqb_eq in E.
Qed.

(** What one click does to the filter of its dimension. *)
Lemma handler_toggles (d : Dimension) (v : string) (args : Args) (w : World) :
  has_points args = true ->
  clicked_field args (field_of d) = Ok v ->
  exists w', handler_of d args w = Ok w'
             /\ filter_of d (state w') = toggle (filter_of d (state w)) v.
Proof.
  intros Hp Hc.
  destruct d; cbn [handler_of field_of filter_of] in *;
    [unfold handle_click_grade | unfold handle_click_level
     | unfold handle_click_subject];
    rewrite Hp, Hc; cbn [bind];
    match goal with |- context [update_dashboard ?x] =>
      destruct (update_dashboard_inv x) as (w' & -> & _ & Hst & _) end;
    exists w'; rewrite Hst; split; reflexivity.
Qed.

(** C3.  For the grade, level and subject dimensions and every value [v]:
    a click on [v] while the filter of the dimension is [v] sets it to
    "All"; a click on [v] while the filter is not [v] sets it to [v]; so two
    clicks on [v] in a row, from a filter that is not [v], leave it at
    "All". *)
Theorem click_toggles (d : Dimension) (v : string) (args : Args) (w : World) :
  has_points args = true ->
  clicked_field args (field_of d) = Ok v ->
  exists w1,
    handler_of d args w = Ok w1
    /\ (filter_of d (state w) = v -> filter_of d (state w1) = "All")
    /\ (filter_of d (state w) <> v -> filter_of d (state w1) = v)
    /\ (filter_of d (state w) <> v ->
        exists w2, handler_of d args w1 = Ok w2
                   /\ filter_of d (state w2) = "All").
Proof.
  intros Hp Hc.
  destruct (handler_toggles d v args w Hp Hc) as (w1 & H1 & F1).
  exists w1. split; [exact H1|]. repeat split.
  - intros E. rewrite F1, E. apply toggle_same.
  - intros NE. rewrite F1. now apply toggle_other.
  - intros NE.
    destruct (handler_toggles d v args w1 Hp Hc) as (w2 & H2 & F2).
    exists w2. split; [exact H2|].
    rewrite F2, F1, (toggle_other _ _ NE). apply toggle_same.
Qed.

Lemma click_toggles_witness :
  exists w1,
    handle_click_subject (click "x" "Math") (sample_world initial_state) = Ok w1
    /\ ("All" = "Math" -> subject (state w1) = "All")
    /\ ("All" <> "Math" -> subject (state w1) = "Math")
    /\ ("All" <> "Math" ->
        exists w2, handle_click_subject (click "x" "Math") w1 = Ok w2
                   /\ subject (state w2) = "All").
Proof.
  apply (click_toggles DSubject "Math" (click "x" "Math")
           (sample_world initial_state)); reflexivity.
Defined.

(** ** The parent quarter of a month *)


(** On the sample table the month "2023-03" narrows the time chart to the
    rows of "2023 Q1", and the unknown month "2031-07" narrows nothing. *)
Example month_known :
  map YearMonthConcat (time_chart_rows sample_df (month_state "2023-03"))
  = ["2023-01"; "2023-03"].
Proof. reflexivity. Qed.

Example month_unknown :
  time_chart_rows sample_df (month_state "2031-07") = sample_df.
Proof. reflexivity. Qed.

(** ** Payloads without a clicked point *)

Lemma missing_points_guard (args : Args) :
  missing_points args <-> has_points args = false.
Proof.
  destruct args as [d|]; cbn [missing_points has_points]; [|tauto].
  destruct d as [|kv d]; cbn [is_empty negb andb].
  - tauto.
  - split; [intros [E|E]; [discriminate | exact E] | now right].
Qed.

Lemma handler_guarded (c : Chart) (args : Args) (w : World) :
  has_points args = false -> click_handler c args w = Ok w.
Proof.
  intros H. destruct c; cbn [click_handler];
    [unfold handle_click_grade | unfold handle_click_level
     | unfold handle_click_time | unfold handle_click_subject];
    now rewrite H.
Qed.

Lemma handler_raises (c : Chart) (args : Args) (w : World) (e : exn) :
  has_points args = true ->
  clicked_field args (click_field c) = Raise e ->
  click_handler c args w = Raise e.
Proof.
  intros H R. destruct c; cbn [click_handler click_field] in *;
    [unfold handle_click_grade | unfold handle_click_level
     | unfold handle_click_time | unfold handle_click_subject];
    now rewrite H, R.
Qed.

Lemma dispatch_click (c : Chart) (args : Args) (w : World) :
  dispatch (click_event c args) w = click_handler c args w.
Proof. now destruct c. Qed.


(** C8, as stated, fails: on a payload whose ['points'] entry lists no
    point, and on one whose point lacks the field read, the handlers
    raise. *)
Lemma no_point_raises :
  clicked_field no_point "label" = Raise IndexError
  /\ handle_click_grade no_point (sample_world initial_state) = Raise IndexError
  /\ handle_click_level no_point (sample_world initial_state) = Raise IndexError
  /\ handle_click_time no_point (sample_world initial_state) = Raise IndexError
  /\ handle_click_subject no_point (sample_world initial_state) = Raise IndexError
  /\ handle_click_grade (click "x" "A") (sample_world initial_state)
     = Raise (KeyError "label").
Proof. repeat split. Qed.

(** ** The table is never written *)

Lemma dispatch_df (ev : Event) (w w' : World) :
  dispatch ev w = Ok w' -> df w' = df w.
Proof.
  destruct ev as [args|args|args|args|value|]; cbn [dispatch].
  - unfold handle_click_grade. destruct (has_points args); [|now intros [= <-]].
    destruct (clicked_field args "label"); cbn [bind]; [|discriminate].
    intros H. now apply update_dashboard_frame in H.
  - unfold handle_click_level. destruct (has_points args); [|now intros [= <-]].
    destruct (clicked_field args "label"); cbn [bind]; [|discriminate].
    intros H. now apply update_dashboard_frame in H.
  - unfold handle_click_time. destruct (has_points args); [|now intros [= <-]].
    destruct (clicked_field args "x"); cbn [bind]; [|discriminate].
    intros H. apply update_dashboard_frame in H. destruct H as [H _].
    rewrite H. now destruct (view_mode (state w)).
  - unfold handle_click_subject. destruct (has_points args); [|now intros [= <-]].
    destruct (clicked_field args "x"); cbn [bind]; [|discriminate].
    intros H. now apply update_dashboard_frame in H.
  - destruct (update_dashboard (set_view_toggle value w)) as [w1|e] eqn:E1;
      cbn [bind]; [|discriminate].
    unfold on_view_change. intros H.
    apply update_dashboard_frame in H. apply update_dashboard_frame in E1.
    destruct H as [H _], E1 as [E1 _]. now rewrite H.
  - unfold reset_filters. intros H. now apply update_dashboard_frame in H.
Qed.

Lemma step_df (w : World) (ev : Event) : df (step w ev) = df w.
Proof.
  unfold step. destruct (dispatch ev w) eqn:E; [|reflexivity].
  now apply dispatch_df in E.
Qed.

Lemma run_df (evs : list Event) (w : World) : df (run evs w) = df w.
Proof.
  unfold run. revert w. induction evs as [|ev evs IH]; intros w.
  - reflexivity.
  - cbn [fold_left]. now rewrite IH, step_df.
Qed.

(** ** Frames: what [get_data] writes *)

Lemma alloc_read_new (f : list Row) (h : Frames.Heap) :
  Frames.read (h ++ [f])%list (List.length h) = f.
Proof. unfold Frames.read. now rewrite nth_middle. Qed.

Lemma alloc_read_old (f : list Row) (h : Frames.Heap) (x : nat) :
  (x < List.length h)%nat -> Frames.read (h ++ [f])%list x = Frames.read h x.
Proof. intros H. unfold Frames.read. now rewrite app_nth1. Qed.

Lemma copy_fresh (h : Frames.Heap) (r : Frames.Ref) :
  fresh_in h (Frames.read h r) (Frames.copy r h).
Proof.
  unfold Frames.copy, Frames.alloc, fresh_in. rewrite length_app. cbn.
  repeat split; [lia | lia | apply alloc_read_new |].
  intros x Hx. now apply alloc_read_old.
Qed.

Lemma select_fresh (h0 : Frames.Heap) (f : list Row) (col : Row -> string)
  (v : string) (d : Frames.Ref) (h : Frames.Heap) :
  fresh_in h0 f (d, h) ->
  fresh_in h0 (where_eq col v f) (Frames.select col v d h).
Proof.
  unfold Frames.select, Frames.alloc, fresh_in. rewrite length_app. cbn.
  intros (B & R & K). repeat split; [lia | lia | |].
  - now rewrite alloc_read_new, R.
  - intros x Hx. rewrite alloc_read_old by lia. now apply K.
Qed.

Lemma cond_select_fresh (h0 : Frames.Heap) (f : list Row) (b : bool)
  (col : Row -> string) (v : string) (d : Frames.Ref) (h : Frames.Heap) :
  fresh_in h0 f (d, h) ->
  fresh_in h0 (if b then where_eq col v f else f)
           (if b then Frames.select col v d h else (d, h)).
Proof. intros F. destruct b; [now apply select_fresh | exact F]. Qed.

Lemma time_select_fresh (h0 : Frames.Heap) (f : list Row) (b q : bool)
  (v : string) (d : Frames.Ref) (h : Frames.Heap) :
  fresh_in h0 f (d, h) ->
  fresh_in h0 (if b then if q then where_eq YearQuarterConcat v f
                         else where_eq YearMonthConcat v f
               else f)
           (if b then if q then Frames.select YearQuarterConcat v d h
                      else Frames.select YearMonthConcat v d h
            else (d, h)).
Proof. intros F. destruct b, q; try exact F; now apply select_fresh. Qed.

Lemma get_data_fresh (h : Frames.Heap) (r : Frames.Ref) (st : State)
  (a b c d : bool) :
  fresh_in h (get_data (Frames.read h r) st a b c d)
           (Frames.get_data r st a b c d h).
Proof.
  unfold Frames.get_data, get_data.
  pose proof (copy_fresh h r) as F. revert F.
  destruct (Frames.copy r h) as [d0 h0]. generalize (Frames.read h r).
  intros f F.
  pose proof (cond_select_fresh _ _ (negb a && neqb (grade st) "All")
                Assessment_Grade (grade st) _ _ F) as F1.
  clear F. revert F1.
  destruct (if negb a && neqb (grade st) "All"
            then Frames.select Assessment_Grade (grade st) d0 h0
            else (d0, h0)) as [d1 h1].
  generalize (if negb a && neqb (grade st) "All"
              then where_eq Assessment_Grade (grade st) f else f).
  clear f. intros f F.
  pose proof (cond_select_fresh _ _ (negb b && neqb (level st) "All")
                GradeLevel (level st) _ _ F) as F1.
  clear F. revert F1.
  destruct (if negb b && neqb (level st) "All"
            then Frames.select GradeLevel (level st) d1 h1
            else (d1, h1)) as [d2 h2].
  generalize (if negb b && neqb (level st) "All"
              then where_eq GradeLevel (level st) f else f).
  clear f. intros f F.
  pose proof (cond_select_fresh _ _ (negb d && neqb (subject st) "All")
                SubjectName (subject st) _ _ F) as F1.
  clear F. revert F1.
  destruct (if negb d && neqb (subject st) "All"
            then Frames.select SubjectName (subject st) d2 h2
            else (d2, h2)) as [d3 h3].
  generalize (if negb d && neqb (subject st) "All"
              then where_eq SubjectName (subject st) f else f).
  clear f. intros f F.
  pose proof (time_select_fresh _ _ (negb c && neqb (time st) "All")
                (PyStr.contains "Q" (time st)) (time st) _ _ F) as F1.
  clear F. revert F1.
  destruct (if negb c && neqb (time st) "All"
            then if PyStr.contains "Q" (time st)
                 then Frames.select YearQuarterConcat (time st) d3 h3
                 else Frames.select YearMonthConcat (time st) d3 h3
            else (d3, h3)) as [d4 h4].
  trivial.
Qed.

(** C10.  The table is not written once it is prepared.  On the heap of
    frames, [get_data] with any ignore flags returns a reference that did
    not exist before the call and holds the filtered rows, and leaves every
    frame that existed, the one bound to [df] among them, as it was.  Over a
    session, whatever events are processed (clicks on the four charts with
    any payload, view-mode toggles, resets, each with its refresh of KPIs
    and charts), the table at the end is the table at the start. *)
Theorem table_never_written :
  (forall (h : Frames.Heap) (r : Frames.Ref) (st : State) (a b c d : bool),
     let '(r', h') := Frames.get_data r st a b c d h in
     (List.length h <= r' < List.length h')%nat
     /\ Frames.read h' r' = get_data (Frames.read h r) st a b c d
     /\ forall x, (x < List.length h)%nat ->
                  Frames.read h' x = Frames.read h x)
  /\ (forall (w : World) (ev : Event) (w' : World),
        dispatch ev w = Ok w' -> df w' = df w)
  /\ (forall (evs : list Event) (w : World), df (run evs w) = df w).
Proof.
  split; [|split].
  - intros h r st a b c d. exact (get_data_fresh h r st a b c d).
  - intros w ev w'. apply dispatch_df.
  - exact run_df.
Qed.

(** ** What a refresh shows *)

Lemma update_dashboard_shows (w : World) :
  let d_kpi := get_data (df w) (state w) false false false false in
  exists w' k,
    update_dashboard w = Ok w'
    /\ state w' = state w
    /\ compute_kpis (df w) d_kpi = Ok k
    /\ kpi_avg (ui w') = avg_text k
    /\ kpi_weighted (ui w') = weighted_text k
    /\ kpi_pass (ui w') = pass_text k
    /\ kpi_perfect (ui w') = perfect_text k
    /\ plot_grade (ui w') = grade_chart (df w) (state w) d_kpi.
Proof.
  intros d_kpi. unfold update_dashboard. fold d_kpi.
  destruct (compute_kpis_total (df w) d_kpi) as [k ->]. cbn [bind].
  do 2 eexists. split; [reflexivity|]. split; [reflexivity|].
  split; [reflexivity|]. now cbn.
Qed.

Lemma compute_kpis_nonempty (df0 : list Row) (r : Row) (d : list Row) (k : Kpis) :
  compute_kpis df0 (r :: d) = Ok k ->
  avg_text k = PyStr.fmt_f 2 (mean_score (r :: d))
  /\ pass_text k
     = PyStr.fmt_f 2 (len (where_eq PassedScore "Pass" (r :: d))
                      / len (r :: d) * 100) ++ "%".
Proof.
  unfold compute_kpis. cbn [is_empty].
  destruct (val_w_total (r :: d)) as [v ->]. cbn [bind].
  unfold pass_rate, perfect_rate. rewrite !truediv_len. cbn [bind].
  intros [= <-]. now cbn.
Qed.

(** A stable sort of three elements returns one of their six orders. *)
Lemma sort_stable_three {A} (leb : A -> A -> bool) (a b c : A) :
  In (sort_stable leb [a; b; c])
     [[a; b; c]; [a; c; b]; [b; a; c]; [b; c; a]; [c; a; b]; [c; b; a]].
Proof.
  unfold sort_stable. cbn [fold_right insert_sorted].
  destruct (leb b c); cbn [insert_sorted];
    destruct (leb a b), (leb a c); cbn [insert_sorted In]; tauto.
Qed.

(** C9, as the code has it.  On a sheet of exactly three records with
    scores 90, 60 and 40 and weights 1, with no filter set: the letter
    grades are A, D and F; after the first refresh the average-score label
    reads 63.33 and the pass-rate label 66.67%; and the grade chart is drawn
    from one line per category of A, B, C, D, F, in that order, with the
    counts 1, 0, 0, 1, 1 (the grouping keeps the categories no row has). *)
Theorem three_row_scenario (hw hws : bool) (r1 r2 r3 : RawRow) :
  let sheet := {| has_Weight := hw; has_WeightedScore := hws;
                  records := [r1; r2; r3] |} in
  raw_Score r1 = 90 -> raw_Score r2 = 60 -> raw_Score r3 = 40 ->
  raw_Weight r1 = 1 -> raw_Weight r2 = 1 -> raw_Weight r3 = 1 ->
  map get_grade [raw_Score r1; raw_Score r2; raw_Score r3] = ["A"; "D"; "F"]
  /\ map Assessment_Grade (map (enrich sheet) [r1; r2; r3]) = ["A"; "D"; "F"]
  /\ exists w fig,
       start (prepare sheet) = Ok w
       /\ state w = initial_state
       /\ kpi_avg (ui w) = "63.33"
       /\ kpi_pass (ui w) = "66.67%"
       /\ plot_grade (ui w) = Some fig
       /\ pie_slices fig = five_buckets.
Proof.
  intros sheet S1 S2 S3 _ _ _.
  destruct r1 as [i1 l1 n1 y1 q1 m1 s1 w1 x1],
           r2 as [i2 l2 n2 y2 q2 m2 s2 w2 x2],
           r3 as [i3 l3 n3 y3 q3 m3 s3 w3 x3].
  cbn [raw_Score] in S1, S2, S3. subst s1 s2 s3.
  split; [reflexivity|]. split; [reflexivity|].
  unfold start.
  match goal with |- context [update_dashboard ?x] =>
    destruct (update_dashboard_shows x)
      as (w & k & -> & Hst & K & Ea & _ & Ep & _ & Eg)
  end.
  cbn [df state] in K, Eg, Hst.
  exists w. rewrite Ea, Ep, Eg, Hst. clear Ea Ep Eg Hst.
  unfold prepare in *. cbn [records sheet map] in *.
  pose proof (sort_stable_three row_leb
                (enrich sheet (mkRawRow i1 l1 n1 y1 q1 m1 90 w1 x1))
                (enrich sheet (mkRawRow i2 l2 n2 y2 q2 m2 60 w2 x2))
                (enrich sheet (mkRawRow i3 l3 n3 y3 q3 m3 40 w3 x3))) as P.
  cbn [In] in P.
  destruct P as [P|[P|[P|[P|[P|[P|[]]]]]]]; rewrite <- P in *; clear P;
    (eexists; split; [reflexivity|];
     split; [reflexivity|];
     apply compute_kpis_nonempty in K; destruct K as [-> ->];
     repeat split; vm_compute; reflexivity).
Qed.

Lemma three_row_scenario_witness :
  map get_grade [90; 60; 40] = ["A"; "D"; "F"]
  /\ map Assessment_Grade (map (enrich sample_sheet) (records sample_sheet))
     = ["A"; "D"; "F"]
  /\ exists w fig,
       start (prepare sample_sheet) = Ok w
       /\ state w = initial_state
       /\ kpi_avg (ui w) = "63.33"
       /\ kpi_pass (ui w) = "66.67%"
       /\ plot_grade (ui w) = Some fig
       /\ pie_slices fig = five_buckets.
Proof.
  apply (three_row_scenario false false
           (mkRawRow 1 "Grade 9" "Math" 2023 1 1 90 1 90)
           (mkRawRow 2 "Grade 9" "Physics" 2023 1 3 60 1 60)
           (mkRawRow 3 "Grade 10" "Math" 2023 2 4 40 1 40));
    reflexivity.
Defined.

(** C9, as stated, fails on its last point: on the three-record sheet the
    grade aggregation is not the three lines A:1, D:1, F:1; it has five
    lines. *)
Lemma three_buckets_refuted :
  groupby_grade_count (get_data sample_df initial_state true false false false)
    <> [("A", 1%nat); ("D", 1%nat); ("F", 1%nat)]
  /\ groupby_grade_count (get_data sample_df initial_state true false false false)
     = five_buckets
  /\ exists w fig,
       start sample_df = Ok w
       /\ plot_grade (ui w) = Some fig
       /\ List.length (pie_slices fig) = 5%nat.
Proof.
  split; [|split].
  - vm_compute. discriminate.
  - reflexivity.
  - vm_compute. do 2 eexists. repeat split.
Qed.

(** * Further properties *)

(** ** The filtered view as one selection *)

Lemma filter_filter {A} (p q : A -> bool) (l : list A) :
  filter q (filter p l) = filter (fun x => p x && q x) l.
Proof.
  induction l as [|x l IH]; cbn [filter]; [reflexivity|].
  destruct (p x); cbn [filter andb]; [|exact IH].
  destruct (q x); now rewrite IH.
Qed.

Lemma filter_all {A} (p : A -> bool) (l : list A) :
  (forall x, In x l -> p x = true) -> filter p l = l.
Proof.
  induction l as [|x l IH]; intros H; cbn [filter]; [reflexivity|].
  rewrite (H x (or_introl eq_refl)). f_equal. apply IH.
  intros y Hy. apply H. now right.
Qed.

Lemma filter_length_mono {A} (p q : A -> bool) (l : list A) :
  (forall x, p x = true -> q x = true) ->
  (List.length (filter p l) <= List.length (filter q l))%nat.
Proof.
  intros H. induction l as [|x l IH]; cbn [filter]; [lia|].
  destruct (p x) eqn:P.
  - rewrite (H x P). cbn [List.length]. lia.
  - destruct (q x); cbn [List.length]; lia.
Qed.

(** One conditional rebinding of [d] in [get_data]. *)
Lemma cond_where_eq (b : bool) (col : Row -> string) (v : string)
  (d : list Row) :
  (if b then where_eq col v d else d)
  = filter (fun r => negb b || String.eqb (col r) v) d.
Proof.
  destruct b; cbn [negb orb]; [reflexivity|].
  symmetry. now apply filter_all.
Qed.

Lemma get_data_filter (df0 : list Row) (st : State) (a b c d : bool) :
  get_data df0 st a b c d = filter (passes st a b c d) df0.
Proof.
  unfold get_data.
  rewrite (cond_where_eq _ Assessment_Grade), (cond_where_eq _ GradeLevel),
          (cond_where_eq _ SubjectName).
  assert (T : forall l,
             (if negb c && neqb (time st) "All"
              then if PyStr.contains "Q" (time st)
                   then where_eq YearQuarterConcat (time st) l
                   else where_eq YearMonthConcat (time st) l
              else l)
             = filter (fun r => c || String.eqb (time st) "All"
                                || if PyStr.contains "Q" (time st)
                                   then String.eqb (YearQuarterConcat r) (time st)
                                   else String.eqb (YearMonthConcat r) (time st))
                      l).
  { intros l. unfold neqb, where_eq.
    destruct c; cbn [negb andb orb]; [symmetry; now apply filter_all|].
    destruct (String.eqb (time st) "All"); cbn [negb orb];
      [symmetry; now apply filter_all|].
    now destruct (PyStr.contains "Q" (time st)). }
  rewrite T, !filter_filter. apply filter_ext. intros r.
  unfold passes, neqb.
  generalize (if PyStr.contains "Q" (time st)
              then String.eqb (YearQuarterConcat r) (time st)
              else String.eqb (YearMonthConcat r) (time st)).
  intros t.
  destruct a, b, c, d, (String.eqb (grade st) "All"),
    (String.eqb (level st) "All"), (String.eqb (subject st) "All"),
    (String.eqb (time st) "All"), (String.eqb (Assessment_Grade r) (grade st)),
    (String.eqb (GradeLevel r) (level st)),
    (String.eqb (SubjectName r) (subject st)), t; reflexivity.
Qed.

Lemma get_data_incl (df0 : list Row) (st : State) (a b c d : bool) :
  incl (get_data df0 st a b c d) df0.
Proof. rewrite get_data_filter. intros r. rewrite filter_In. tauto. Qed.

(** X1.  [get_data] returns the rows of the table that pass every filter that
    is set and not ignored, in table order and as often as the table holds
    them; a row is in the view exactly when it is in the table and passes. *)
Theorem get_data_selects (df0 : list Row) (st : State) (a b c d : bool) :
  get_data df0 st a b c d = filter (passes st a b c d) df0
  /\ forall r, In r (get_data df0 st a b c d)
               <-> In r df0 /\ passes st a b c d r = true.
Proof.
  split; [apply get_data_filter|].
  intros r. rewrite get_data_filter. apply filter_In.
Qed.

Lemma passes_weaken (st : State) (a b c d : bool) (r : Row) :
  passes st false false false false r = true -> passes st a b c d r = true.
Proof.
  unfold passes. destruct a, b, c, d; cbn [orb];
    rewrite !andb_true_iff; tauto.
Qed.

(** X2.  Ignoring dimensions never loses a row: the fully filtered view is
    contained in the view of any ignore flags and is no longer than it. *)
Theorem ignoring_widens (df0 : list Row) (st : State) (a b c d : bool) :
  incl (get_data df0 st false false false false) (get_data df0 st a b c d)
  /\ (List.length (get_data df0 st false false false false)
      <= List.length (get_data df0 st a b c d))%nat
  /\ incl (get_data df0 st a b c d) df0.
Proof.
  rewrite !get_data_filter. repeat split.
  - intros r. rewrite !filter_In. intros [I P]. split; [exact I|].
    now apply passes_weaken.
  - apply filter_length_mono. intros r. apply passes_weaken.
  - intros r. rewrite filter_In. tauto.
Qed.

(** X3.  Filtering a view again with the same state and flags changes nothing,
    and the flags can be applied in two rounds: what one call ignores, a
    second call on its result can still filter. *)
Theorem get_data_again (df0 : list Row) (st : State) (a b c d : bool) :
  get_data (get_data df0 st a b c d) st a b c d = get_data df0 st a b c d
  /\ get_data (get_data df0 st a b c d) st false false false false
     = get_data df0 st false false false false.
Proof.
  rewrite !get_data_filter, !filter_filter. split; apply filter_ext_in.
  - intros r _. now destruct (passes st a b c d r).
  - intros r _. destruct (passes st false false false false r) eqn:P.
    + now rewrite (passes_weaken st a b c d r P).
    + apply andb_false_r.
Qed.

(** ** Letter grades *)

Ltac grade_cases s :=
  unfold get_grade;
  destruct (Qgtb s 84) eqn:?A; [|destruct (Qgtb s 74) eqn:?B;
    [|destruct (Qgtb s 64) eqn:?C; [|destruct (Qgtb s 54) eqn:?D]]];
  repeat match goal with
         | H : Qgtb _ _ = true |- _ => apply Qgtb_true in H
         | H : Qgtb _ _ = false |- _ => apply Qgtb_false in H
         end.

(** X4.  [get_grade] cuts the scores into five bands with the bounds 84, 74,
    64 and 54, each bound belonging to the band below it, and returns a
    category of [grade_order] for every score. *)
Theorem get_grade_bands (s : Q) :
  (get_grade s = "A" <-> 84 < s)
  /\ (get_grade s = "B" <-> 74 < s /\ s <= 84)
  /\ (get_grade s = "C" <-> 64 < s /\ s <= 74)
  /\ (get_grade s = "D" <-> 54 < s /\ s <= 64)
  /\ (get_grade s = "F" <-> s <= 54)
  /\ In (get_grade s) grade_order.
Proof.
  grade_cases s; repeat split; intros; try discriminate; try lra;
    cbn; tauto.
Qed.

(** X5.  A higher score never gets a lower grade: the category code of the
    grade does not grow with the score. *)
Theorem get_grade_monotone (s t : Q) :
  s <= t ->
  (category_code grade_order (get_grade t)
   <= category_code grade_order (get_grade s))%nat.
Proof.
  intros L. grade_cases s; grade_cases t; cbn; try lia; exfalso; lra.
Qed.

Lemma get_grade_monotone_witness :
  (category_code grade_order (get_grade 90)
   <= category_code grade_order (get_grade 60))%nat.
Proof. apply (get_grade_monotone 60 90). discriminate. Defined.

(** X6.  Passing and grading do not use the same bound: a score passes from 55
    on, while D starts above 54.  So F always fails and A, B, C always
    pass, but a D fails exactly when the score lies strictly between 54
    and 55. *)
Theorem grade_and_pass (s : Q) :
  (passed_score s = "Pass" <-> 55 <= s)
  /\ (get_grade s = "F" -> passed_score s = "Fail")
  /\ (get_grade s = "A" \/ get_grade s = "B" \/ get_grade s = "C" ->
      passed_score s = "Pass")
  /\ (get_grade s = "D" /\ passed_score s = "Fail" <-> 54 < s /\ s < 55).
Proof.
  unfold passed_score.
  destruct (Qle_bool 55 s) eqn:P;
    [apply Qle_bool_iff in P | apply Qle_bool_false in P];
    grade_cases s; repeat split; intros; try discriminate; try tauto;
    try lra;
    repeat match goal with
           | H : _ /\ _ |- _ => destruct H
           | H : _ \/ _ |- _ => destruct H
           end; try discriminate; try lra.
Qed.

Example grade_D_fails : get_grade (109 # 2) = "D" /\ passed_score (109 # 2) = "Fail".
Proof. split; reflexivity. Qed.

(** ** The prepared table *)

Lemma insert_sorted_perm {A} (leb : A -> A -> bool) (x : A) (l : list A) :
  Permutation (insert_sorted leb x l) (x :: l).
Proof.
  induction l as [|y l IH]; cbn [insert_sorted]; [reflexivity|].
  destruct (leb x y); [reflexivity|].
  rewrite IH. apply perm_swap.
Qed.

Lemma sort_stable_perm {A} (leb : A -> A -> bool) (l : list A) :
  Permutation (sort_stable leb l) l.
Proof.
  unfold sort_stable. induction l as [|x l IH]; cbn [fold_right]; [reflexivity|].
  rewrite insert_sorted_perm. now constructor.
Qed.

Lemma insert_sorted_sorted {A} (leb : A -> A -> bool) (x : A) (l : list A) :
  (forall a b, leb a b = true \/ leb b a = true) ->
  Sorted (fun a b => leb a b = true) l ->
  Sorted (fun a b => leb a b = true) (insert_sorted leb x l).
Proof.
  intros T S. induction S as [|y l S IH H]; cbn [insert_sorted].
  - repeat constructor.
  - destruct (leb x y) eqn:E.
    + constructor; [now constructor | now constructor].
    + constructor; [exact IH|].
      destruct l as [|z l]; cbn [insert_sorted].
      * constructor. destruct (T x y); congruence.
      * destruct (leb x z); constructor.
        -- destruct (T x y); congruence.
        -- now inversion H.
Qed.

Lemma sort_stable_sorted {A} (leb : A -> A -> bool) (l : list A) :
  (forall a b, leb a b = true \/ leb b a = true) ->
  Sorted (fun a b => leb a b = true) (sort_stable leb l).
Proof.
  intros T. unfold sort_stable.
  induction l as [|x l IH]; cbn [fold_right]; [constructor|].
  now apply insert_sorted_sorted.
Qed.

(** A sorted list is left as it is. *)
Lemma sort_stable_fixed {A} (leb : A -> A -> bool) (l : list A) :
  Sorted (fun a b => leb a b = true) l -> sort_stable leb l = l.
Proof.
  unfold sort_stable. induction 1 as [|x l S IH H]; cbn [fold_right];
    [reflexivity|].
  rewrite IH. destruct H as [|y l H]; cbn [insert_sorted]; [reflexivity|].
  now rewrite H.
Qed.

Lemma row_leb_total (a b : Row) : row_leb a b = true \/ row_leb b a = true.
Proof.
  unfold row_leb. rewrite (String.compare_antisym (GradeLevel b)).
  destruct (String.compare (GradeLevel a) (GradeLevel b)); cbn [CompOpp];
    try tauto.
  rewrite !Nat.leb_le. lia.
Qed.

(** X7.  The preparation keeps the records of the sheet, one row each, and
    leaves them ordered by level and, within a level, by grade from A to
    F. *)
Theorem prepare_sorts (s : FactSheet) :
  Permutation (prepare s) (map (enrich s) (records s))
  /\ List.length (prepare s) = List.length (records s)
  /\ Sorted row_le (prepare s).
Proof.
  unfold prepare. repeat split.
  - apply sort_stable_perm.
  - rewrite (Permutation_length (sort_stable_perm _ _)). apply length_map.
  - apply sort_stable_sorted, row_leb_total.
Qed.

Lemma enrich_derived (s : FactSheet) (r : RawRow) : derived s (enrich s r).
Proof.
  unfold derived, enrich. cbn. repeat split.
  - now intros ->.
  - intros ->. reflexivity.
Qed.

Lemma prepare_derived (s : FactSheet) (r : Row) :
  In r (prepare s) -> derived s r.
Proof.
  intros I. unfold prepare in I.
  apply (Permutation_in _ (sort_stable_perm _ _)) in I.
  apply in_map_iff in I. destruct I as (raw & <- & _). apply enrich_derived.
Qed.

Lemma views_derived_aux (s : FactSheet) (st : State) (a b c d : bool) (r : Row) :
  In r (get_data (prepare s) st a b c d) -> derived s r.
Proof.
  intros I. apply prepare_derived. now apply (get_data_incl _ st a b c d).
Qed.

(** X8.  In every view of a prepared table the grade and the pass mark of a row
    are those of its score; without a Weight column every weight is 1, and
    without a WeightedScore column the weighted score is score times
    weight. *)
Theorem views_keep_derived (s : FactSheet) (st : State) (a b c d : bool) :
  Forall (derived s) (get_data (prepare s) st a b c d).
Proof.
  apply Forall_forall. intros r I. apply prepare_derived.
  now apply (get_data_incl _ st a b c d).
Qed.

(** ** The grade distribution *)

Lemma grade_count_sum (d : list Row) :
  Forall (fun r => In (Assessment_Grade r) grade_order) d ->
  list_sum (map snd (groupby_grade_count d)) = List.length d.
Proof.
  unfold groupby_grade_count, grade_order, where_eq.
  induction 1 as [|r d H F IH]; [reflexivity|].
  cbn [map snd list_sum filter] in *.
  cbn [In] in H.
  destruct H as [H|[H|[H|[H|[H|[]]]]]]; rewrite <- H in *; simpl; simpl in IH; lia.
Qed.

Lemma get_grade_in_order (x : Q) : In (get_grade x) grade_order.
Proof. grade_cases x; cbn; tauto. Qed.

(** X9.  On a prepared table the grade chart is blank exactly when the
    grade-ignoring view is empty.  Otherwise it has the five slices A to F,
    their counts add up to the rows of the grade-ignoring view, and the
    number at its centre, the row count of the fully filtered view, is at
    most that sum. *)
Theorem grade_chart_counts (s : FactSheet) (st : State) :
  let d_kpi := get_data (prepare s) st false false false false in
  let d_grade := get_data (prepare s) st true false false false in
  match grade_chart (prepare s) st d_kpi with
  | None => d_grade = []
  | Some fig =>
      d_grade <> []
      /\ map fst (pie_slices fig) = grade_order
      /\ list_sum (map snd (pie_slices fig)) = List.length d_grade
      /\ pie_annotation fig = List.length d_kpi
      /\ (pie_annotation fig <= list_sum (map snd (pie_slices fig)))%nat
  end.
Proof.
  intros d_kpi d_grade. unfold grade_chart. fold d_grade.
  assert (S : list_sum (map snd (groupby_grade_count d_grade))
              = List.length d_grade).
  { apply grade_count_sum. apply Forall_forall. intros r I.
    pose proof (views_derived_aux s st true false false false r I) as D.
    destruct D as (G & _). rewrite G. apply get_grade_in_order. }
  destruct d_grade as [|r d] eqn:E; cbn [is_empty negb]; [reflexivity|].
  cbn [pie_slices pie_annotation]. rewrite S.
  split; [discriminate|]. split; [reflexivity|]. split; [reflexivity|].
  split; [reflexivity|].
  rewrite <- E. unfold d_kpi, d_grade. rewrite !get_data_filter.
  apply filter_length_mono. intros x. apply passes_weaken.
Qed.

(** ** KPIs as percentages *)

Lemma len_le {A} (l l' : list A) :
  (List.length l <= List.length l')%nat -> len l <= len l'.
Proof. intros H. unfold len. rewrite <- Zle_Qle. lia. Qed.

Lemma len_pos {A} (x : A) (l : list A) : 0 < len (x :: l).
Proof.
  unfold len. change 0 with (inject_Z 0). rewrite <- Zlt_Qlt.
  cbn [List.length]. lia.
Qed.

Lemma rate_bounds (a b : Q) :
  0 <= a -> a <= b -> 0 < b -> 0 <= a / b * 100 /\ a / b * 100 <= 100.
Proof.
  intros A B P.
  assert (L : 0 <= a / b) by (apply Qle_shift_div_l; [exact P | lra]).
  assert (U : a / b <= 1) by (apply Qle_shift_div_r; [exact P | lra]).
  split; lra.
Qed.

(** X10.  On a view that holds a row, the pass rate and the perfect-score rate
    are computed without raising and lie between 0 and 100. *)
Theorem rates_are_percentages (df0 : list Row) (r : Row) (d : list Row) :
  exists p f,
    pass_rate (r :: d) = Ok p
    /\ perfect_rate df0 (r :: d) = Ok f
    /\ 0 <= p /\ p <= 100 /\ 0 <= f /\ f <= 100.
Proof.
  unfold pass_rate, perfect_rate, where_eq. rewrite !truediv_len. cbn [bind].
  do 2 eexists. split; [reflexivity|]. split; [reflexivity|].
  assert (B : forall p : Row -> bool,
             0 <= len (filter p (r :: d)) / len (r :: d) * 100
             /\ len (filter p (r :: d)) / len (r :: d) * 100 <= 100).
  { intros p. apply rate_bounds.
    - change 0 with (len (@nil Row)). apply len_le. cbn. lia.
    - apply len_le, filter_length_le.
    - apply len_pos. }
  split; [apply B|]. split; [apply B|]. split; apply B.
Qed.

(** ** Grouping *)

Lemma ascii_compare_refl (a : ascii) : Ascii.compare a a = Eq.
Proof. apply N.compare_refl. Qed.

Lemma key_lt_trans (a b c : string) : key_lt a b -> key_lt b c -> key_lt a c.
Proof.
  unfold key_lt. revert b c.
  induction a as [|x a IH]; intros [|y b] [|z c]; cbn [String.compare];
    try discriminate; try reflexivity.
  destruct (Ascii.compare x y) eqn:XY; try discriminate;
    destruct (Ascii.compare y z) eqn:YZ; try discriminate; intros H1 H2.
  - apply Ascii.compare_eq_iff in XY, YZ. subst.
    rewrite ascii_compare_refl. now apply IH with b.
  - apply Ascii.compare_eq_iff in XY. subst. now rewrite YZ.
  - apply Ascii.compare_eq_iff in YZ. subst. now rewrite XY.
  - unfold Ascii.compare in *. rewrite N.compare_lt_iff in XY, YZ.
    assert (E : (N_of_ascii x ?= N_of_ascii z)%N = Lt)
      by (apply N.compare_lt_iff; lia).
    now rewrite E.
Qed.

Lemma key_lt_irrefl (a : string) : ~ key_lt a a.
Proof.
  unfold key_lt. induction a as [|x a IH]; cbn [String.compare];
    [discriminate|].
  now rewrite ascii_compare_refl.
Qed.

Lemma insert_key_In (k x : string) (l : list string) :
  In x (insert_key k l) <-> x = k \/ In x l.
Proof.
  induction l as [|y l IH]; cbn [insert_key In]; [intuition|].
  destruct (String.compare k y) eqn:C; cbn [In].
  - apply String.compare_eq_iff in C. subst. intuition.
  - intuition.
  - rewrite IH. intuition.
Qed.

Lemma insert_key_sorted (k : string) (l : list string) :
  Sorted key_lt l -> Sorted key_lt (insert_key k l).
Proof.
  induction 1 as [|y l S IH H]; cbn [insert_key].
  - repeat constructor.
  - destruct (String.compare k y) eqn:C.
    + now constructor.
    + constructor; [now constructor | now constructor].
    + assert (Y : key_lt y k).
      { unfold key_lt. rewrite String.compare_antisym, C. reflexivity. }
      constructor; [exact IH|].
      destruct l as [|z l]; cbn [insert_key]; [now constructor|].
      destruct (String.compare k z); constructor; try exact Y.
      all: now inversion H.
Qed.

Lemma group_keys_In (x : string) (l : list string) :
  In x (group_keys l) <-> In x l.
Proof.
  unfold group_keys. induction l as [|k l IH]; cbn [fold_right In]; [tauto|].
  rewrite insert_key_In, IH. intuition.
Qed.

Lemma group_keys_sorted (l : list string) : Sorted key_lt (group_keys l).
Proof.
  unfold group_keys. induction l as [|k l IH]; cbn [fold_right];
    [constructor|].
  now apply insert_key_sorted.
Qed.

Lemma sorted_keys_NoDup (l : list string) : Sorted key_lt l -> NoDup l.
Proof.
  intros S. apply Sorted_StronglySorted in S;
    [|intros a b c; apply key_lt_trans].
  induction S as [|x l S IH F]; constructor; [|exact IH].
  intros I. rewrite Forall_forall in F. exact (key_lt_irrefl x (F x I)).
Qed.

Lemma groupby_keys {V} (col : Row -> string) (agg : list Row -> V)
  (d : list Row) :
  map fst (groupby col agg d) = group_keys (map col d).
Proof. unfold groupby. rewrite map_map. cbn [fst]. apply map_id. Qed.

(** A [groupby] has one line per key that occurs in the frame: the keys
    come in strictly ascending order, none twice; a key is there exactly
    when some row carries it; and the value of a line is the aggregate of
    exactly the rows of its key, which are never none. *)
Theorem groupby_lines {V} (col : Row -> string) (agg : list Row -> V)
  (d : list Row) :
  Sorted key_lt (map fst (groupby col agg d))
  /\ NoDup (map fst (groupby col agg d))
  /\ (forall k, In k (map fst (groupby col agg d))
                <-> exists r, In r d /\ col r = k)
  /\ (forall k v, In (k, v) (groupby col agg d) ->
                  v = agg (where_eq col k d) /\ where_eq col k d <> []).
Proof.
  rewrite groupby_keys. repeat split.
  - apply group_keys_sorted.
  - apply sorted_keys_NoDup, group_keys_sorted.
  - rewrite group_keys_In, in_map_iff. intros (r & E & I). eauto.
  - rewrite group_keys_In, in_map_iff. intros (r & I & E). eauto.
  - unfold groupby in H. apply in_map_iff in H.
    destruct H as (k' & [= <- <-] & _). reflexivity.
  - unfold groupby in H. apply in_map_iff in H.
    destruct H as (k' & [= <- <-] & I).
    apply group_keys_In, in_map_iff in I. destruct I as (r & E & I).
    intros N. assert (X : In r (where_eq col k' d))
      by (apply where_eq_In; now split).
    now rewrite N in X.
Qed.

(** ** The four figures *)

Lemma Permutation_in_iff_aux {A} (l l' : list A) :
  Permutation l l' -> forall x, In x l <-> In x l'.
Proof.
  intros P x. split; [apply (Permutation_in _ P)|].
  apply Permutation_in. now symmetry.
Qed.

Lemma Sorted_map_inv {A B} (R : B -> B -> Prop) (f : A -> B) (l : list A) :
  Sorted R (map f l) -> Sorted (fun a b => R (f a) (f b)) l.
Proof.
  induction l as [|x l IH]; cbn [map]; intros S; [constructor|].
  inversion S as [|? ? S' H]; subst. constructor; [now apply IH|].
  destruct l; cbn [map] in H; constructor. now inversion H.
Qed.

Lemma Sorted_weaken {A} (R R' : A -> A -> Prop) (l : list A) :
  (forall a b, R a b -> R' a b) -> Sorted R l -> Sorted R' l.
Proof.
  intros W. induction 1 as [|x l S IH H]; constructor; [exact IH|].
  destruct H; constructor. now apply W.
Qed.

Lemma key_lt_leb (a b : string) : key_lt a b -> String.leb a b = true.
Proof. unfold key_lt, String.leb. now intros ->. Qed.

Lemma groupby_sorted_leb {V} (col : Row -> string) (agg : list Row -> V)
  (d : list Row) :
  Sorted (fun a b => String.leb (fst a) (fst b) = true) (groupby col agg d).
Proof.
  apply Sorted_weaken with (R := fun a b => key_lt (fst a) (fst b)).
  - intros a b. apply key_lt_leb.
  - apply Sorted_map_inv. rewrite groupby_keys. apply group_keys_sorted.
Qed.

(** X12.  The time chart is blank exactly when its rows are none.  Otherwise
    it has one bar per quarter label (Quarter mode) or month label (Month
    mode) that occurs in its rows, in ascending label order, so that the
    sort by label after the grouping changes nothing; each bar is the mean
    score of the rows of its label; there is one opacity per bar; and the
    dashed line is the mean score of the fully filtered view, or 0 when that
    view is empty. *)
Theorem time_chart_bars (df0 : list Row) (st : State) :
  let rows := time_chart_rows df0 st in
  let col := match view_mode st with
             | Quarter => YearQuarterConcat
             | Month => YearMonthConcat
             end in
  match time_chart df0 st with
  | None => rows = []
  | Some fig =>
      rows <> []
      /\ bars fig = groupby col mean_score rows
      /\ Sorted key_lt (map fst (bars fig))
      /\ (forall k, In k (map fst (bars fig))
                    <-> exists r, In r rows /\ col r = k)
      /\ (forall k v, In (k, v) (bars fig) ->
                      v = mean_score (where_eq col k rows))
      /\ (exists o, bar_opacity fig = Some o
                    /\ List.length o = List.length (bars fig))
      /\ bar_hline fig = glob_avg df0 st
  end.
Proof.
  intros rows col. unfold time_chart. fold rows.
  destruct rows as [|r d] eqn:E; cbn [is_empty negb]; [reflexivity|].
  cbn [bars bar_opacity bar_hline]. fold col.
  rewrite (sort_stable_fixed _ _ (groupby_sorted_leb col mean_score (r :: d))).
  split; [discriminate|]. split; [reflexivity|].
  rewrite groupby_keys.
  split; [apply group_keys_sorted|].
  split.
  { intros k. rewrite group_keys_In, in_map_iff. split.
    - intros (x & Ex & I). eauto.
    - intros (x & I & Ex). eauto. }
  split.
  { intros k v H. unfold groupby in H. apply in_map_iff in H.
    now destruct H as (k' & [= <- <-] & _). }
  split; [|reflexivity].
  eexists. split; [reflexivity|].
  match goal with |- context [if ?c then _ else _] => destruct c end;
    unfold highlight; rewrite length_map; [|reflexivity].
  now rewrite <- (groupby_keys col mean_score), length_map.
Qed.

Lemma mean_leb_total (a b : string * Q) :
  Qle_bool (snd b) (snd a) = true \/ Qle_bool (snd a) (snd b) = true.
Proof.
  rewrite !Qle_bool_iff. destruct (Qlt_le_dec (snd a) (snd b)) as [H|H].
  - right. now apply Qlt_le_weak.
  - now left.
Qed.

(** X13.  The subject chart is blank exactly when the subject-ignoring view is
    empty.  Otherwise its bars are the lines of the grouping by subject,
    one per subject that occurs in that view and each the mean score of the
    rows of its subject, rearranged so that no bar is higher than the one
    before it; the opacities, when the subject filter is set, are one per
    bar. *)
Theorem subject_chart_bars (df0 : list Row) (st : State) :
  let d_sub := get_data df0 st false false false true in
  match subject_chart df0 st with
  | None => d_sub = []
  | Some fig =>
      d_sub <> []
      /\ Permutation (bars fig) (groupby SubjectName mean_score d_sub)
      /\ Sorted mean_ge (bars fig)
      /\ (forall k, In k (map fst (bars fig))
                    <-> exists r, In r d_sub /\ SubjectName r = k)
      /\ (forall k v, In (k, v) (bars fig) ->
                      v = mean_score (where_eq SubjectName k d_sub))
      /\ (forall o, bar_opacity fig = Some o ->
                    List.length o = List.length (bars fig))
  end.
Proof.
  intros d_sub. unfold subject_chart. fold d_sub.
  destruct d_sub as [|r d] eqn:E; cbn [is_empty negb]; [reflexivity|].
  cbn [bars bar_opacity].
  set (leb := fun a b : string * Q => Qle_bool (snd b) (snd a)).
  set (g := groupby SubjectName mean_score (r :: d)).
  pose proof (sort_stable_perm leb g) as P.
  split; [discriminate|]. split; [exact P|].
  split.
  { apply Sorted_weaken with (R := fun a b => leb a b = true).
    - intros a b H. now apply Qle_bool_iff.
    - apply sort_stable_sorted. intros a b. apply mean_leb_total. }
  split.
  { intros k.
    rewrite (Permutation_in_iff_aux _ _ (Permutation_map fst P) k).
    unfold g. rewrite groupby_keys, group_keys_In, in_map_iff. split.
    - intros (x & Ex & I). eauto.
    - intros (x & I & Ex). eauto. }
  split.
  { intros k v H. apply (Permutation_in _ P) in H.
    unfold g, groupby in H. apply in_map_iff in H.
    now destruct H as (k' & [= <- <-] & _). }
  intros o. destruct (neqb (subject st) "All"); [|discriminate].
  intros [= <-]. unfold highlight. now rewrite !length_map.
Qed.

(** ** Counting students *)

Lemma unique_In (x : Z) (l : list Z) : In x (unique l) <-> In x l.
Proof.
  induction l as [|y l IH]; cbn [unique In]; [tauto|].
  rewrite filter_In, IH, negb_true_iff, Z.eqb_neq.
  destruct (Z.eq_dec y x); intuition.
Qed.

Lemma unique_NoDup (l : list Z) : NoDup (unique l).
Proof.
  induction l as [|y l IH]; cbn [unique]; constructor.
  - rewrite filter_In, negb_true_iff, Z.eqb_neq. tauto.
  - now apply NoDup_filter.
Qed.

Lemma nunique_le (l : list Z) : (nunique l <= List.length l)%nat.
Proof.
  unfold nunique. induction l as [|y l IH]; cbn [unique List.length]; [lia|].
  pose proof (filter_length_le (fun z => negb (Z.eqb z y)) (unique l)). lia.
Qed.

Lemma nunique_pos (l : list Z) : l <> [] -> (1 <= nunique l)%nat.
Proof. destruct l; [congruence|]. intros _. unfold nunique. cbn. lia. Qed.

(** [nunique] counts each student once: the list it measures has no
    repetition and holds exactly the ids of the column, so the count is at
    most the number of rows and at least 1 on a column that holds a
    value. *)
Theorem nunique_counts_distinct (l : list Z) :
  NoDup (unique l)
  /\ (forall x, In x (unique l) <-> In x l)
  /\ (nunique l <= List.length l)%nat
  /\ (l = [] \/ (1 <= nunique l)%nat).
Proof.
  split; [apply unique_NoDup|]. split; [intros x; apply unique_In|].
  split; [apply nunique_le|].
  destruct l; [now left | right; apply nunique_pos; discriminate].
Qed.

(** X14.  The level chart is blank exactly when the level-ignoring view is
    empty.  Otherwise it has one slice per level that occurs in that view,
    in ascending order of the level labels; the count of a slice is the
    number of distinct students among the rows of its level, at least 1 and
    at most the number of those rows; and the number at the centre, the
    distinct students of the fully filtered view, is at most the number of
    its rows. *)
Theorem level_chart_counts (df0 : list Row) (st : State) :
  let d_kpi := get_data df0 st false false false false in
  let d_level := get_data df0 st false true false false in
  match level_chart df0 st d_kpi with
  | None => d_level = []
  | Some fig =>
      d_level <> []
      /\ Sorted key_lt (map fst (pie_slices fig))
      /\ (forall k, In k (map fst (pie_slices fig))
                    <-> exists r, In r d_level /\ GradeLevel r = k)
      /\ (forall k n, In (k, n) (pie_slices fig) ->
            n = nunique (map StudentID (where_eq GradeLevel k d_level))
            /\ (1 <= n <= List.length (where_eq GradeLevel k d_level))%nat)
      /\ pie_annotation fig = nunique (map StudentID d_kpi)
      /\ (pie_annotation fig <= List.length d_kpi)%nat
      /\ (forall p, pie_pull fig = Some p ->
                    List.length p = List.length (pie_slices fig))
  end.
Proof.
  intros d_kpi d_level. unfold level_chart. fold d_level.
  destruct d_level as [|r d] eqn:E; cbn [is_empty negb]; [reflexivity|].
  cbn [pie_slices pie_annotation pie_pull].
  split; [discriminate|]. rewrite groupby_keys.
  split; [apply group_keys_sorted|].
  split.
  { intros k. rewrite group_keys_In, in_map_iff. split.
    - intros (x & Ex & I). eauto.
    - intros (x & I & Ex). eauto. }
  split.
  { intros k n H. unfold groupby in H. apply in_map_iff in H.
    destruct H as (k' & [= <- <-] & I). split; [reflexivity|].
    apply group_keys_In, in_map_iff in I. destruct I as (x & Ex & I).
    assert (X : In x (where_eq GradeLevel k' (r :: d)))
      by (apply where_eq_In; now split).
    split.
    - apply nunique_pos. intros N. apply map_eq_nil in N.
      change (where_eq GradeLevel k' (r :: d) = []) in N.
      rewrite N in X. destruct X.
    - rewrite <- (length_map StudentID). apply nunique_le. }
  split; [reflexivity|].
  split; [rewrite <- (length_map StudentID d_kpi); apply nunique_le|].
  intros p. unfold pull_for. destruct (neqb (level st) "All"); [|discriminate].
  intros [= <-]. unfold groupby. now rewrite !length_map.
Qed.

(** ** The rows of the time chart *)

(** X15.  The drill-down context only narrows: the rows of the time chart are
    always rows of the time-ignoring view, and they are that whole view in
    Quarter mode and whenever no time filter is set. *)
Theorem time_rows_narrow (df0 : list Row) (st : State) :
  let d_time := get_data df0 st false false true false in
  incl (time_chart_rows df0 st) d_time
  /\ (List.length (time_chart_rows df0 st) <= List.length d_time)%nat
  /\ (view_mode st = Quarter \/ time st = "All" ->
      time_chart_rows df0 st = d_time).
Proof.
  intros d_time. unfold time_chart_rows. fold d_time.
  assert (N : forall v, incl (where_eq YearQuarterConcat v d_time) d_time
                        /\ (List.length (where_eq YearQuarterConcat v d_time)
                            <= List.length d_time)%nat).
  { intros v. split; [apply incl_filter | apply filter_length_le]. }
  repeat split.
  - destruct (view_mode st); [apply incl_refl|].
    repeat match goal with
           | |- context [if ?c then _ else _] => destruct c
           | |- context [match ?m with [] => _ | _ :: _ => _ end] => destruct m
           end; try apply incl_refl; apply N.
  - destruct (view_mode st); [lia|].
    repeat match goal with
           | |- context [if ?c then _ else _] => destruct c
           | |- context [match ?m with [] => _ | _ :: _ => _ end] => destruct m
           end; try lia; apply N.
  - intros [-> | ->]; [reflexivity|]. now destruct (view_mode st).
Qed.

(** ** Month labels and full dates *)

Lemma fmt_02d_range :
  forallb (fun n => Nat.eqb (String.length (PyStr.fmt_02d (Z.of_nat n))) 2
                    && negb (PyStr.contains "-" (PyStr.fmt_02d (Z.of_nat n))))
          (seq 0 100) = true.
Proof. vm_compute. reflexivity. Qed.

Lemma fmt_02d_two (m : Z) :
  (0 <= m < 100)%Z ->
  String.length (PyStr.fmt_02d m) = 2%nat
  /\ PyStr.contains "-" (PyStr.fmt_02d m) = false.
Proof.
  intros H. pose proof fmt_02d_range as R. rewrite forallb_forall in R.
  specialize (R (Z.to_nat m)). rewrite Z2Nat.id in R by lia.
  assert (I : In (Z.to_nat m) (seq 0 100)) by (apply in_seq; lia).
  apply R in I. apply andb_true_iff in I. destruct I as [L D].
  apply Nat.eqb_eq in L. apply negb_true_iff in D. now split.
Qed.

(** [str(n)] has no dash after its first character. *)
Lemma str_dash_at_head (n : Z) (i : nat) :
  String.get (S i) (PyStr.str n) <> Some "-"%char.
Proof.
  intros G. destruct (str_shape n) as (t & Nt & [E|E]); rewrite E in G.
  - apply get_contains in G. congruence.
  - cbn [String.get] in G. apply get_contains in G. congruence.
Qed.

Lemma string_length_app (a b : string) :
  String.length (a ++ b) = (String.length a + String.length b)%nat.
Proof. induction a; cbn; [reflexivity | now f_equal]. Qed.

(** In [sy + "-" + sm] a dash at index 4 is the separator. *)
Lemma dash_at_4 (sy sm : string) :
  (forall i, String.get (S i) sy <> Some "-"%char) ->
  PyStr.contains "-" sm = false ->
  String.get 4 (sy ++ "-" ++ sm) = Some "-"%char ->
  String.length sy = 4%nat.
Proof.
  intros Hy Hm G.
  destruct sy as [|c0 [|c1 [|c2 [|c3 [|c4 sy]]]]]; cbn in G;
    try (apply get_contains in G; congruence); [reflexivity|].
  exfalso. apply (Hy 3%nat). cbn. exact G.
Qed.

Lemma month_label_length (year m : Z) :
  (0 <= m < 100)%Z ->
  String.length (PyStr.str year) = 4%nat ->
  String.length (year_month_concat year m) = 7%nat.
Proof.
  intros Hm Hy. unfold year_month_concat.
  rewrite !string_length_app, Hy, (proj1 (fmt_02d_two m Hm)). reflexivity.
Qed.

Lemma truncate_date_month_label (year m : Z) :
  (0 <= m < 100)%Z ->
  truncate_date (year_month_concat year m) = year_month_concat year m.
Proof.
  intros Hm. unfold truncate_date.
  destruct (String.get 4 (year_month_concat year m)) as [c|] eqn:G;
    [|now rewrite andb_false_r].
  destruct (Ascii.eqb c "-") eqn:E; [|now rewrite andb_false_r].
  apply Ascii.eqb_eq in E. subst c.
  assert (L : String.length (PyStr.str year) = 4%nat).
  { apply (dash_at_4 _ (PyStr.fmt_02d m)).
    - apply str_dash_at_head.
    - apply (fmt_02d_two m Hm).
    - exact G. }
  now rewrite (month_label_length year m Hm L).
Qed.

Lemma substring_prefix (a b : string) :
  String.substring 0 (String.length a) (a ++ b) = a.
Proof.
  induction a as [|c a IH]; cbn.
  - now destruct b.
  - now rewrite IH.
Qed.

Lemma get_app_left (a b : string) (n : nat) (c : ascii) :
  String.get n a = Some c -> String.get n (a ++ b) = Some c.
Proof.
  revert n. induction a as [|x a IH]; intros n; cbn; [discriminate|].
  destruct n; [trivial | apply IH].
Qed.

(** X16.  A month label of a four-digit year is kept as it is by the date cut,
    and a longer string that starts with it, such as the full date Plotly
    may send for it, is cut back to that label. *)
Theorem full_date_selects_month (year m : Z) (rest : string) :
  String.length (PyStr.str year) = 4%nat ->
  (0 <= m < 100)%Z ->
  rest <> EmptyString ->
  truncate_date (year_month_concat year m) = year_month_concat year m
  /\ truncate_date (year_month_concat year m ++ rest)
     = year_month_concat year m.
Proof.
  intros Hy Hm Hr. split; [now apply truncate_date_month_label|].
  pose proof (month_label_length year m Hm Hy) as L.
  unfold truncate_date.
  assert (G : String.get 4 (year_month_concat year m ++ rest) = Some "-"%char).
  { apply get_app_left. unfold year_month_concat.
    destruct (PyStr.str year) as [|c0 [|c1 [|c2 [|c3 [|c4 sy]]]]];
      try discriminate. reflexivity. }
  rewrite G, string_length_app, L.
  destruct rest as [|c rest]; [congruence|]. cbn [String.length].
  replace (Nat.ltb 7 (7 + S (String.length rest))) with true
    by (symmetry; apply Nat.ltb_lt; lia).
  cbn [andb Ascii.eqb Bool.eqb]. rewrite <- L. apply substring_prefix.
Qed.

Lemma full_date_selects_month_witness :
  truncate_date (year_month_concat 2023 1) = "2023-01"
  /\ truncate_date (year_month_concat 2023 1 ++ "-15") = "2023-01".
Proof.
  apply (full_date_selects_month 2023 1 "-15");
    [reflexivity | lia | discriminate].
Defined.

(** ** What an event changes *)

Lemma update_dashboard_state (w w' : World) :
  update_dashboard w = Ok w' -> state w' = state w.
Proof. intros H. now apply update_dashboard_frame in H. Qed.

(** X17.  Each event writes only its own part of the filter state: a click on
    the grade, level or subject chart leaves the other three filters and the
    view mode alone; a click on the time chart leaves grade, level and
    subject alone and ends in Month mode unless it was ignored; the toggle
    sets the view mode and no filter; a reset gives the initial state. *)
Theorem event_scope (ev : Event) (w w' : World) :
  dispatch ev w = Ok w' -> scope ev (state w) (state w').
Proof.
  destruct ev as [args|args|args|args|value|]; cbn [dispatch scope].
  - unfold handle_click_grade.
    destruct (has_points args); [|intros [= <-]; tauto].
    destruct (clicked_field args "label"); cbn [bind]; [|discriminate].
    intros H. apply update_dashboard_state in H. rewrite H. now cbn.
  - unfold handle_click_level.
    destruct (has_points args); [|intros [= <-]; tauto].
    destruct (clicked_field args "label"); cbn [bind]; [|discriminate].
    intros H. apply update_dashboard_state in H. rewrite H. now cbn.
  - unfold handle_click_time.
    destruct (has_points args); [|intros [= <-]; tauto].
    destruct (clicked_field args "x"); cbn [bind]; [|discriminate].
    intros H. apply update_dashboard_state in H. rewrite H.
    destruct (view_mode (state w)) eqn:M; cbn; rewrite ?M; tauto.
  - unfold handle_click_subject.
    destruct (has_points args); [|intros [= <-]; tauto].
    destruct (clicked_field args "x"); cbn [bind]; [|discriminate].
    intros H. apply update_dashboard_state in H. rewrite H. now cbn.
  - destruct (update_dashboard (set_view_toggle value w)) as [w1|e] eqn:E1;
      cbn [bind]; [|discriminate].
    unfold on_view_change. intros H.
    apply update_dashboard_state in H, E1. rewrite H. cbn.
    rewrite E1. now cbn.
  - unfold reset_filters. intros H. apply update_dashboard_state in H.
    rewrite H. reflexivity.
Qed.

Lemma event_scope_witness :
  scope (TimeClicked (click "x" "2023 Q1"))
        (state (sample_world (set_grade "A" initial_state)))
        (state (step (sample_world (set_grade "A" initial_state))
                     (TimeClicked (click "x" "2023 Q1")))).
Proof.
  apply (event_scope (TimeClicked (click "x" "2023 Q1"))
           (sample_world (set_grade "A" initial_state))).
  vm_compute. reflexivity.
Defined.

(** ** The page follows the state *)

Lemma update_dashboard_page (w : World) :
  exists w', update_dashboard w = Ok w'
             /\ df w' = df w
             /\ state w' = state w
             /\ view_toggle (ui w') = view_toggle (ui w)
             /\ (view_toggle (ui w) = view_mode (state w) -> shows w').
Proof.
  unfold update_dashboard.
  destruct (compute_kpis_total (df w)
              (get_data (df w) (state w) false false false false)) as [k Hk].
  rewrite Hk. cbn [bind]. eexists. split; [reflexivity|].
  cbn [df state ui view_toggle]. do 3 (split; [reflexivity|]).
  intros T. unfold shows.
  cbn -[compute_kpis get_data grade_chart level_chart time_chart
        subject_chart status_text time_title].
  rewrite Hk. destruct k. repeat split. exact T.
Qed.

Ltac refresh x :=
  let w' := fresh "w" in
  let Hd := fresh "Hd" in
  let Hs := fresh "Hs" in
  let Ht := fresh "Ht" in
  let Hp := fresh "Hp" in
  destruct (update_dashboard_page x) as (w' & -> & Hd & Hs & Ht & Hp).

Lemma shows_toggle (w : World) : shows w -> view_toggle (ui w) = view_mode (state w).
Proof. unfold shows. tauto. Qed.

Lemma step_shows (w : World) (ev : Event) : shows w -> shows (step w ev).
Proof.
  intros S. pose proof (shows_toggle w S) as T. unfold step.
  destruct ev as [args|args|args|args|value|]; cbn [dispatch].
  - unfold handle_click_grade. destruct (has_points args); [|exact S].
    destruct (clicked_field args "label"); cbn [bind]; [|exact S].
    match goal with |- context [update_dashboard ?x] => refresh x end.
    apply Hp. exact T.
  - unfold handle_click_level. destruct (has_points args); [|exact S].
    destruct (clicked_field args "label"); cbn [bind]; [|exact S].
    match goal with |- context [update_dashboard ?x] => refresh x end.
    apply Hp. exact T.
  - unfold handle_click_time. destruct (has_points args); [|exact S].
    destruct (clicked_field args "x"); cbn [bind]; [|exact S].
    match goal with |- context [update_dashboard ?x] => refresh x end.
    apply Hp. destruct (view_mode (state w)) eqn:M; cbn; [reflexivity|].
    now rewrite T, M.
  - unfold handle_click_subject. destruct (has_points args); [|exact S].
    destruct (clicked_field args "x"); cbn [bind]; [|exact S].
    match goal with |- context [update_dashboard ?x] => refresh x end.
    apply Hp. exact T.
  - refresh (set_view_toggle value w). cbn [bind]. unfold on_view_change.
    match goal with |- context [update_dashboard ?x] => refresh x end.
    apply Hp0. cbn. rewrite Ht. reflexivity.
  - unfold reset_filters.
    match goal with |- context [update_dashboard ?x] => refresh x end.
    apply Hp. reflexivity.
Qed.

Lemma run_shows (evs : list Event) (w : World) : shows w -> shows (run evs w).
Proof.
  unfold run. revert w. induction evs as [|ev evs IH]; intros w S; [exact S|].
  cbn [fold_left]. now apply IH, step_shows.
Qed.


(** X19.  A reset after any events gives the session of a fresh start: the
    initial filter state over the same table, and the page of the first
    refresh. *)
Theorem reset_restarts (evs : list Event) (w : World) :
  let w' := run (evs ++ [ResetRequested]) w in
  exists w0,
    start (df w) = Ok w0
    /\ df w' = df w
    /\ state w' = initial_state
    /\ same_page (ui w') (ui w0).
Proof.
  intros w'. unfold w', run. rewrite fold_left_app. cbn [fold_left].
  fold (run evs w). pose proof (run_df evs w) as D.
  set (w1 := run evs w) in *.
  unfold step. cbn [dispatch]. unfold reset_filters, start, update_dashboard.
  cbn [df state ui with_state set_view_toggle]. rewrite D.
  destruct (compute_kpis_total (df w)
              (get_data (df w) initial_state false false false false))
    as [k ->].
  cbn [bind]. eexists. split; [reflexivity|].
  cbn [df state ui]. split; [reflexivity|]. split; [reflexivity|].
  unfold same_page. cbn. repeat split.
Qed.

Lemma get_data_ignores_own (df0 : list Row) (st : State) (v : string) :
  get_data df0 (set_grade v st) true false false false
  = get_data df0 st true false false false
  /\ get_data df0 (set_level v st) false true false false
     = get_data df0 st false true false false
  /\ get_data df0 (set_subject v st) false false false true
     = get_data df0 st false false false true.
Proof. repeat split. Qed.

(** X20.  A click on the grade, level or subject chart never changes what that
    chart is drawn from: on a page that shows the state, the slices (or
    bars) of the clicked chart are after the click what they were before;
    only its highlighting and the other outputs follow the new filter. *)
Theorem own_chart_unchanged (d : Dimension) (args : Args) (w w' : World) :
  shows w ->
  handler_of d args w = Ok w' ->
  own_chart_kept d (ui w) (ui w').
Proof.
  intros S H. pose proof (shows_toggle w S) as T.
  destruct S as (_ & _ & Sg & Sl & _ & Ss & _).
  destruct d; cbn [handler_of own_chart_kept] in *.
  - unfold handle_click_grade in H.
    destruct (has_points args); [|now injection H as <-].
    destruct (clicked_field args "label") as [v|]; cbn [bind] in H;
      [|discriminate].
    revert H.
    match goal with |- context [update_dashboard ?x] => refresh x end.
    intros [= <-]. destruct (Hp T) as (_ & _ & Eg & _).
    rewrite Eg, Sg, Hs, Hd. cbn [df state with_state].
    unfold grade_chart.
    rewrite (proj1 (get_data_ignores_own (df w) (state w) _)).
    now destruct (is_empty (get_data (df w) (state w) true false false false)).
  - unfold handle_click_level in H.
    destruct (has_points args); [|now injection H as <-].
    destruct (clicked_field args "label") as [v|]; cbn [bind] in H;
      [|discriminate].
    revert H.
    match goal with |- context [update_dashboard ?x] => refresh x end.
    intros [= <-]. destruct (Hp T) as (_ & _ & _ & El & _).
    rewrite El, Sl, Hs, Hd. cbn [df state with_state].
    unfold level_chart.
    rewrite (proj1 (proj2 (get_data_ignores_own (df w) (state w) _))).
    now destruct (is_empty (get_data (df w) (state w) false true false false)).
  - unfold handle_click_subject in H.
    destruct (has_points args); [|now injection H as <-].
    destruct (clicked_field args "x") as [v|]; cbn [bind] in H;
      [|discriminate].
    revert H.
    match goal with |- context [update_dashboard ?x] => refresh x end.
    intros [= <-]. destruct (Hp T) as (_ & _ & _ & _ & _ & Es & _).
    rewrite Es, Ss, Hs, Hd. cbn [df state with_state].
    unfold subject_chart.
    rewrite (proj2 (proj2 (get_data_ignores_own (df w) (state w) _))).
    now destruct (is_empty (get_data (df w) (state w) false false false true)).
Qed.

Lemma own_chart_unchanged_witness :
  let w := step (sample_world initial_state) ResetRequested in
  own_chart_kept DGrade (ui w)
    (ui (step w (GradeClicked (click "label" "A")))).
Proof.
  apply (own_chart_unchanged DGrade (click "label" "A")
           (step (sample_world initial_state) ResetRequested)).
  - vm_compute. repeat split.
  - vm_compute. reflexivity.
Defined.

(** ** Clicks on the time chart in Month mode *)

Lemma handle_click_time_state (args : Args) (w : World) (s : string) :
  has_points args = true ->
  clicked_field args "x" = Ok s ->
  exists w',
    handle_click_time args w = Ok w'
    /\ df w' = df w
    /\ state w'
       = match view_mode (state w) with
         | Quarter =>
             set_view_mode Month (set_time (truncate_date s) (state w))
         | Month =>
             set_time (toggle (time (state w)) (truncate_date s)) (state w)
         end.
Proof.
  intros Hp Hc. unfold handle_click_time. rewrite Hp, Hc. cbn [bind].
  match goal with |- context [update_dashboard ?x] =>
    destruct (update_dashboard_inv x) as (w' & -> & Hd & Hs & _) end.
  exists w'. split; [reflexivity|]. rewrite Hd, Hs.
  now destruct (view_mode (state w)).
Qed.

(** X21.  In Month mode a click on a month bar of the table (a label built from
    a year and a month number below 100) toggles the time filter: it
    clears the filter when that month is selected and selects the month
    otherwise, and the view mode stays Month. *)
Theorem month_click_toggles (w : World) (args : Args) (year m : Z) :
  let label := year_month_concat year m in
  view_mode (state w) = Month ->
  (0 <= m < 100)%Z ->
  has_points args = true ->
  clicked_field args "x" = Ok label ->
  exists w1,
    handle_click_time args w = Ok w1
    /\ view_mode (state w1) = Month
    /\ (time (state w) = label -> time (state w1) = "All")
    /\ (time (state w) <> label -> time (state w1) = label)
    /\ (time (state w) <> label ->
        exists w2, handle_click_time args w1 = Ok w2
                   /\ time (state w2) = "All"
                   /\ view_mode (state w2) = Month).
Proof.
  intros label M Hm Hp Hc.
  destruct (handle_click_time_state args w label Hp Hc) as (w1 & H1 & _ & S1).
  rewrite M in S1. unfold label in S1.
  rewrite (truncate_date_month_label year m Hm) in S1. fold label in S1.
  exists w1. split; [exact H1|]. rewrite S1. cbn [set_time view_mode time].
  split; [exact M|]. split; [|split].
  - intros ->. apply toggle_same.
  - intros NE. now apply toggle_other.
  - intros NE.
    destruct (handle_click_time_state args w1 label Hp Hc) as (w2 & H2 & _ & S2).
    rewrite S1 in S2. cbn [set_time view_mode time] in S2. rewrite M in S2.
    unfold label in S2 at 2.
    rewrite (truncate_date_month_label year m Hm) in S2. fold label in S2.
    rewrite (toggle_other _ _ NE), toggle_same in S2.
    exists w2. split; [exact H2|]. rewrite S2. now split.
Qed.

Lemma month_click_toggles_witness :
  exists w1,
    handle_click_time (click "x" "2023-03")
      (sample_world (month_state "2023 Q1")) = Ok w1
    /\ view_mode (state w1) = Month
    /\ ("2023 Q1" = "2023-03" -> time (state w1) = "All")
    /\ ("2023 Q1" <> "2023-03" -> time (state w1) = "2023-03")
    /\ ("2023 Q1" <> "2023-03" ->
        exists w2, handle_click_time (click "x" "2023-03") w1 = Ok w2
                   /\ time (state w2) = "All"
                   /\ view_mode (state w2) = Month).
Proof.
  apply (month_click_toggles (sample_world (month_state "2023 Q1"))
           (click "x" "2023-03") 2023 3);
    [reflexivity | lia | reflexivity | reflexivity].
Defined.

Lemma step_time_click (w : World) (s : string) :
  exists w',
    step w (TimeClicked (click "x" s)) = w'
    /\ df w' = df w
    /\ state w'
       = match view_mode (state w) with
         | Quarter =>
             set_view_mode Month (set_time (truncate_date s) (state w))
         | Month =>
             set_time (toggle (time (state w)) (truncate_date s)) (state w)
         end.
Proof.
  destruct (handle_click_time_state (click "x" s) w s eq_refl eq_refl)
    as (w' & H & D & S).
  exists w'. unfold step. cbn [dispatch]. now rewrite H.
Qed.

Lemma digits_no_Q (d : Decimal.uint) :
  PyStr.contains "Q" (NilEmpty.string_of_uint d) = false.
Proof. induction d; cbn; auto. Qed.

Lemma str_no_Q (n : Z) : PyStr.contains "Q" (PyStr.str n) = false.
Proof.
  unfold PyStr.str.
  destruct n as [|p|p]; cbn [Z.to_int NilZero.string_of_int PyStr.contains];
    try reflexivity;
    rewrite ?orb_false_l; unfold NilZero.string_of_uint;
    destruct (Pos.to_uint p); try reflexivity; apply digits_no_Q.
Qed.

Lemma month_label_no_Q (year m : Z) :
  PyStr.contains "Q" (year_month_concat year m) = false.
Proof.
  unfold year_month_concat, PyStr.fmt_02d.
  destruct ((0 <=? m)%Z && (m <? 10)%Z);
    rewrite !contains_app, !str_no_Q; reflexivity.
Qed.

(** X22.  Selecting and then deselecting a month after a drill-down does not
    return to the quarter: from Quarter mode, a click on a quarter bar
    followed by two clicks on the same month bar ends in Month mode with no
    time filter, and the time chart is then drawn from the whole
    time-ignoring view, the months of every quarter. *)
Theorem drill_down_then_deselect (w : World) (year q year' m : Z) :
  let quarter := TimeClicked (click "x" (year_quarter_concat year q)) in
  let month := TimeClicked (click "x" (year_month_concat year' m)) in
  let w3 := run [quarter; month; month] w in
  view_mode (state w) = Quarter ->
  (0 <= q)%Z ->
  (0 <= m < 100)%Z ->
  time (state w3) = "All"
  /\ view_mode (state w3) = Month
  /\ df w3 = df w
  /\ time_chart_rows (df w3) (state w3)
     = get_data (df w) (state w) false false true false.
Proof.
  intros quarter month w3 M Hq Hm.
  destruct (step_time_click w (year_quarter_concat year q))
    as (w1 & E1 & D1 & S1).
  rewrite M, (truncate_date_quarter_label _ _ Hq) in S1.
  destruct (step_time_click w1 (year_month_concat year' m))
    as (w2 & E2 & D2 & S2).
  rewrite S1 in S2. cbn [set_view_mode set_time view_mode time] in S2.
  rewrite (truncate_date_month_label _ _ Hm) in S2.
  assert (NE : year_quarter_concat year q <> year_month_concat year' m).
  { intros E. pose proof (quarter_label_has_Q year q) as X.
    rewrite E, month_label_no_Q in X. discriminate. }
  rewrite (toggle_other _ _ NE) in S2.
  destruct (step_time_click w2 (year_month_concat year' m))
    as (w3' & E3 & D3 & S3).
  rewrite S2 in S3. cbn [set_view_mode set_time view_mode time] in S3.
  rewrite (truncate_date_month_label _ _ Hm), toggle_same in S3.
  assert (R : w3 = w3').
  { unfold w3, run, quarter, month. cbn [fold_left].
    now rewrite E1, E2, E3. }
  rewrite R, S3, D3, D2, D1. cbn [set_time time view_mode].
  repeat split.
Qed.

Lemma drill_down_then_deselect_witness :
  let w3 := run [TimeClicked (click "x" "2023 Q1");
                 TimeClicked (click "x" "2023-03");
                 TimeClicked (click "x" "2023-03")]
                (sample_world initial_state) in
  time (state w3) = "All"
  /\ view_mode (state w3) = Month
  /\ df w3 = sample_df
  /\ time_chart_rows (df w3) (state w3)
     = get_data sample_df initial_state false false true false.
Proof.
  apply (drill_down_then_deselect (sample_world initial_state) 2023 1 2023 3);
    [reflexivity | lia | lia].
Defined.

(** ** What can raise *)

Lemma has_key_getitem {V} (k : string) (d : list (string * V)) :
  has_key k d = true -> exists v, getitem d k = Ok v.
Proof.
  induction d as [|[k' v] d IH]; cbn [has_key getitem]; [discriminate|].
  destruct (String.eqb k' k); cbn [orb]; [eauto | exact IH].
Qed.

Lemma clicked_field_raises (args : Args) (field : string) (e : exn) :
  has_points args = true ->
  clicked_field args field = Raise e ->
  e = IndexError \/ e = KeyError field.
Proof.
  destruct args as [d|]; cbn [has_points clicked_field]; [|discriminate].
  intros H. apply andb_true_iff in H. destruct H as [_ H].
  destruct (has_key_getitem _ _ H) as (points & ->). cbn [bind].
  destruct points as [|p points]; cbn [first bind].
  - intros [= <-]. now left.
  - clear H. induction p as [|[k v] p IH]; cbn [getitem].
    + intros [= <-]. now right.
    + destruct (String.eqb k field); [discriminate | exact IH].
Qed.


(** ** The two files compute the same KPIs *)

(** X24.  The class of app_comment.py takes the pass rate and the perfect-score
    rate as means of boolean series, the functions of app.py as quotients
    of row counts; for every table and state both put the same four texts
    on the KPI labels. *)
Theorem class_kpis_agree (w : World) :
  exists w' k,
    update_dashboard w = Ok w'
    /\ Dashboard.render_kpis (df w) (state w) = Ok k
    /\ kpi_avg (ui w') = avg_text k
    /\ kpi_weighted (ui w') = weighted_text k
    /\ kpi_pass (ui w') = pass_text k
    /\ kpi_perfect (ui w') = perfect_text k.
Proof.
  rewrite render_kpis_agree.
  destruct (update_dashboard_shows w)
    as (w' & k & U & _ & K & A & W & P & F & _).
  exists w', k. now repeat split.
Qed.

(** ** Weights that sum to nothing *)

(** X25.  When the weights of a view that holds a row do not sum to a positive
    number, nothing is divided by that sum: the weighted-average label
    reads 0.00%. *)
Theorem zero_weight_kpi (w : World) :
  let d_kpi := get_data (df w) (state w) false false false false in
  d_kpi <> [] ->
  Qsum (map Weight d_kpi) <= 0 ->
  val_w d_kpi = Ok 0
  /\ exists w', update_dashboard w = Ok w' /\ kpi_weighted (ui w') = "0.00%".
Proof.
  intros d_kpi NE Z.
  assert (V : val_w d_kpi = Ok 0).
  { unfold val_w.
    replace (Qgtb (Qsum (map Weight d_kpi)) 0) with false; [reflexivity|].
    symmetry. apply Qgtb_false. now apply Qle_not_lt. }
  split; [exact V|].
  destruct (update_dashboard_shows w)
    as (w' & k & U & _ & K & _ & W & _).
  exists w'. split; [exact U|]. rewrite W. fold d_kpi in K.
  unfold compute_kpis in K. destruct d_kpi as [|r d]; [congruence|].
  cbn [is_empty] in K. rewrite V in K. cbn [bind] in K.
  unfold pass_rate, perfect_rate in K. rewrite !truediv_len in K.
  cbn [bind] in K. injection K as <-. reflexivity.
Qed.

Lemma zero_weight_kpi_witness :
  val_w (prepare weightless_sheet) = Ok 0
  /\ exists w',
       update_dashboard {| df := prepare weightless_sheet;
                           state := initial_state; ui := initial_ui |}
       = Ok w'
       /\ kpi_weighted (ui w') = "0.00%".
Proof.
  apply (zero_weight_kpi {| df := prepare weightless_sheet;
                            state := initial_state; ui := initial_ui |});
    [discriminate | vm_compute; discriminate].
Defined.

(** ** Quarter labels and month labels *)

Lemma month_label_has_dash (year m : Z) :
  PyStr.contains "-" (year_month_concat year m) = true.
Proof.
  unfold year_month_concat. rewrite !contains_app. cbn.
  now rewrite orb_true_r.
Qed.

(** X26.  The labels of a prepared table tell the two families apart the way
    [get_data] tests them: every quarter label holds a "Q", every month
    label holds a dash and no "Q".  So with the time filter set to the
    quarter label of a row the view is the time-ignoring view restricted to
    that quarter, and with the month label of a row it is restricted to
    that month; the row itself is kept when it passes the other filters. *)
Theorem time_filter_routes (s : FactSheet) (st : State) (a b d : bool)
  (r : Row) :
  In r (prepare s) ->
  PyStr.contains "Q" (YearQuarterConcat r) = true
  /\ PyStr.contains "Q" (YearMonthConcat r) = false
  /\ PyStr.contains "-" (YearMonthConcat r) = true
  /\ get_data (prepare s) (set_time (YearQuarterConcat r) st) a b false d
     = where_eq YearQuarterConcat (YearQuarterConcat r)
         (get_data (prepare s) st a b true d)
  /\ get_data (prepare s) (set_time (YearMonthConcat r) st) a b false d
     = where_eq YearMonthConcat (YearMonthConcat r)
         (get_data (prepare s) st a b true d)
  /\ (In r (get_data (prepare s) st a b true d) ->
      In r (get_data (prepare s) (set_time (YearQuarterConcat r) st)
              a b false d)
      /\ In r (get_data (prepare s) (set_time (YearMonthConcat r) st)
                 a b false d)).
Proof.
  intros I. unfold prepare in I.
  apply (Permutation_in _ (sort_stable_perm _ _)) in I.
  apply in_map_iff in I. destruct I as (raw & <- & _).
  cbn [enrich YearQuarterConcat YearMonthConcat].
  pose proof (quarter_label_has_Q (raw_Year raw) (raw_QuarterNumber raw)) as Q.
  pose proof (month_label_no_Q (raw_Year raw) (raw_Month raw)) as NQ.
  pose proof (month_label_has_dash (raw_Year raw) (raw_Month raw)) as D.
  assert (EQ : forall l,
             get_data l (set_time (year_quarter_concat (raw_Year raw)
                                     (raw_QuarterNumber raw)) st) a b false d
             = where_eq YearQuarterConcat
                 (year_quarter_concat (raw_Year raw) (raw_QuarterNumber raw))
                 (get_data l st a b true d)).
  { intros l. unfold get_data. cbn [set_time grade level subject time negb andb].
    now rewrite (has_Q_not_All _ Q), Q. }
  assert (EM : forall l,
             get_data l (set_time (year_month_concat (raw_Year raw)
                                     (raw_Month raw)) st) a b false d
             = where_eq YearMonthConcat
                 (year_month_concat (raw_Year raw) (raw_Month raw))
                 (get_data l st a b true d)).
  { intros l. unfold get_data. cbn [set_time grade level subject time negb andb].
    now rewrite (has_dash_not_All _ D), NQ. }
  split; [exact Q|]. split; [exact NQ|]. split; [exact D|].
  split; [apply EQ|]. split; [apply EM|].
  intros V. rewrite EQ, EM. split; apply where_eq_In; now split.
Qed.

Lemma time_filter_routes_witness :
  let r := enrich sample_sheet (mkRawRow 1 "Grade 9" "Math" 2023 1 1 90 1 90) in
  PyStr.contains "Q" (YearQuarterConcat r) = true
  /\ PyStr.contains "Q" (YearMonthConcat r) = false
  /\ PyStr.contains "-" (YearMonthConcat r) = true
  /\ get_data (prepare sample_sheet)
       (set_time (YearQuarterConcat r) initial_state) false false false false
     = where_eq YearQuarterConcat (YearQuarterConcat r)
         (get_data (prepare sample_sheet) initial_state false false true false)
  /\ get_data (prepare sample_sheet)
       (set_time (YearMonthConcat r) initial_state) false false false false
     = where_eq YearMonthConcat (YearMonthConcat r)
         (get_data (prepare sample_sheet) initial_state false false true false)
  /\ (In r (get_data (prepare sample_sheet) initial_state
              false false true false) ->
      In r (get_data (prepare sample_sheet)
              (set_time (YearQuarterConcat r) initial_state)
              false false false false)
      /\ In r (get_data (prepare sample_sheet)
                 (set_time (YearMonthConcat r) initial_state)
                 false false false false)).
Proof.
  apply (time_filter_routes sample_sheet initial_state false false false
           (enrich sample_sheet (mkRawRow 1 "Grade 9" "Math" 2023 1 1 90 1 90))).
  vm_compute. right. left. reflexivity.
Defined.

(** * The time chart as displayed *)

Lemma time_chart_draws (df0 : list Row) (st : State) :
  let col := match view_mode st with
             | Quarter => YearQuarterConcat
             | Month => YearMonthConcat
             end in
  draws col (time_chart_rows df0 st) (time_chart df0 st)
  /\ (neqb (time st) "All"
      && negb (ViewMode_eqb (view_mode st) Month
               && PyStr.contains "Q" (time st)) = true ->
      highlights (time st) (time_chart df0 st))
  /\ (neqb (time st) "All"
      && negb (ViewMode_eqb (view_mode st) Month
               && PyStr.contains "Q" (time st)) = false ->
      opaque_bars (time_chart df0 st)).
Proof.
  intros col. unfold time_chart, draws, highlights, opaque_bars. fold col.
  destruct (time_chart_rows df0 st) as [|r d]; cbn [is_empty negb].
  - repeat split; discriminate.
  - rewrite (sort_stable_fixed _ _ (groupby_sorted_leb col mean_score (r :: d))).
    cbn [bars]. split; [split; [discriminate | reflexivity]|].
    split; intros C fig [= <-]; cbn [bars bar_opacity]; now rewrite C.
Qed.

Lemma update_dashboard_time (w : World) :
  exists w', update_dashboard w = Ok w'
             /\ df w' = df w
             /\ state w' = state w
             /\ view_toggle (ui w') = view_toggle (ui w)
             /\ plot_time (ui w') = time_chart (df w) (state w)
             /\ time_title_label (ui w') = time_title (state w).
Proof.
  unfold update_dashboard.
  destruct (compute_kpis_total (df w)
              (get_data (df w) (state w) false false false false)) as [k ->].
  cbn [bind]. eexists. split; [reflexivity|]. now cbn.
Qed.

(** C2.  In Quarter mode a click on the time chart that carries a quarter
    label (the label the table builds from a year and a quarter number,
    such as "2023 Q1") stores that label as the time filter and moves the
    view mode and the toggle to Month, whatever the time filter held
    before; the other filters and the table are kept.  On the page the
    click leaves, the time chart is drawn from those rows of the
    time-ignoring view whose quarter label is the clicked one, and from no
    other: it is blank when there is none, and otherwise has one bar per
    month label of these rows at their mean score, all at full opacity,
    under the title "Monthly Breakdown for" that quarter. *)
Theorem quarter_click_drills_down (w : World) (args : Args) (year q : Z) :
  let label := year_quarter_concat year q in
  view_mode (state w) = Quarter ->
  (0 <= q)%Z ->
  has_points args = true ->
  clicked_field args "x" = Ok label ->
  exists w',
    handle_click_time args w = Ok w'
    /\ time (state w') = label
    /\ view_mode (state w') = Month
    /\ view_toggle (ui w') = Month
    /\ grade (state w') = grade (state w)
    /\ level (state w') = level (state w)
    /\ subject (state w') = subject (state w)
    /\ df w' = df w
    /\ time_chart_rows (df w') (state w')
       = where_eq YearQuarterConcat label
           (get_data (df w') (state w') false false true false)
    /\ (forall r, In r (time_chart_rows (df w') (state w')) <->
                  In r (get_data (df w') (state w') false false true false)
                  /\ YearQuarterConcat r = label)
    /\ draws YearMonthConcat
         (where_eq YearQuarterConcat label
            (get_data (df w) (state w) false false true false))
         (plot_time (ui w'))
    /\ opaque_bars (plot_time (ui w'))
    /\ time_title_label (ui w') = "Monthly Breakdown for " ++ label.
Proof.
  intros label Hmode Hq Hp Hc.
  unfold handle_click_time. rewrite Hp, Hc. cbn [bind].
  unfold label. rewrite (truncate_date_quarter_label _ _ Hq), Hmode.
  fold label.
  match goal with |- context [update_dashboard ?x] =>
    destruct (update_dashboard_time x)
      as (w' & -> & Hdf & Hst & Htg & Hpl & Hti) end.
  cbn [df state ui with_state set_view_toggle view_toggle]
    in Hdf, Hst, Htg, Hpl, Hti.
  exists w'. rewrite Hdf, Hst, Htg, Hpl, Hti. split; [reflexivity|].
  set (st' := set_view_mode Month (set_time label (state w))).
  pose proof (quarter_label_has_Q year q) as HQ. fold label in HQ.
  assert (R : time_chart_rows (df w) st'
              = where_eq YearQuarterConcat label
                  (get_data (df w) st' false false true false)).
  { unfold time_chart_rows, st'. cbn [set_view_mode set_time view_mode time].
    now rewrite (has_Q_not_All _ HQ), HQ. }
  assert (C : neqb (time st') "All"
              && negb (ViewMode_eqb (view_mode st') Month
                       && PyStr.contains "Q" (time st')) = false).
  { unfold st'. cbn [set_view_mode set_time view_mode time ViewMode_eqb].
    rewrite HQ. apply andb_false_r. }
  destruct (time_chart_draws (df w) st') as (D & _ & O).
  repeat (split; [reflexivity|]).
  split; [exact R|].
  split; [intros r; rewrite R; apply where_eq_In|].
  split; [|split].
  - rewrite R in D. exact D.
  - exact (O C).
  - unfold time_title, st'.
    cbn [set_view_mode set_time view_mode time ViewMode_eqb].
    now rewrite HQ.
Qed.

Lemma quarter_click_drills_down_witness :
  exists w',
    handle_click_time (click "x" "2023 Q1")
      (sample_world (set_time "2023 Q1" initial_state)) = Ok w'
    /\ time (state w') = "2023 Q1"
    /\ view_mode (state w') = Month
    /\ view_toggle (ui w') = Month
    /\ grade (state w') = "All"
    /\ level (state w') = "All"
    /\ subject (state w') = "All"
    /\ df w' = sample_df
    /\ time_chart_rows (df w') (state w')
       = where_eq YearQuarterConcat "2023 Q1"
           (get_data (df w') (state w') false false true false)
    /\ (forall r, In r (time_chart_rows (df w') (state w')) <->
                  In r (get_data (df w') (state w') false false true false)
                  /\ YearQuarterConcat r = "2023 Q1")
    /\ draws YearMonthConcat
         (where_eq YearQuarterConcat "2023 Q1" sample_df)
         (plot_time (ui w'))
    /\ opaque_bars (plot_time (ui w'))
    /\ time_title_label (ui w') = "Monthly Breakdown for 2023 Q1".
Proof.
  apply (quarter_click_drills_down
           (sample_world (set_time "2023 Q1" initial_state))
           (click "x" "2023 Q1") 2023 1).
  - reflexivity.
  - lia.
  - reflexivity.
  - reflexivity.
Defined.

(** The page of the witness: the bars of January and March of "2023 Q1". *)
Example quarter_click_page :
  option_map (fun fig => (bars fig, bar_opacity fig))
    (plot_time (ui (step (sample_world initial_state)
                         (TimeClicked (click "x" "2023 Q1")))))
  = Some ([("2023-01", 90); ("2023-03", 60)], Some [1; 1]).
Proof. reflexivity. Qed.

(** C7.  In Month mode with a month label as time filter (it holds a dash
    and no "Q"), the refresh completes without raising.  When some row of
    the table has that month label, the time chart it leaves on the page is
    drawn from the rows of the time-ignoring view whose quarter label is
    that of a row of the table with this month (the first one in table
    order); when no row of the table has it, the chart is drawn from the
    whole time-ignoring view.  Drawn means: blank without rows, otherwise
    one bar per month label of the rows at their mean score, the bar of the
    selected month at full opacity and the others dimmed. *)
Theorem month_parent_quarter (df0 : list Row) (st : State) (u : UI) :
  let d_time := get_data df0 st false false true false in
  view_mode st = Month ->
  PyStr.contains "-" (time st) = true ->
  PyStr.contains "Q" (time st) = false ->
  exists w',
    update_dashboard {| df := df0; state := st; ui := u |} = Ok w'
    /\ df w' = df0
    /\ state w' = st
    /\ ((exists r, In r df0 /\ YearMonthConcat r = time st) ->
        exists r0 rest,
          where_eq YearMonthConcat (time st) df0 = r0 :: rest
          /\ In r0 df0 /\ YearMonthConcat r0 = time st
          /\ time_chart_rows df0 st
             = where_eq YearQuarterConcat (YearQuarterConcat r0) d_time
          /\ draws YearMonthConcat
               (where_eq YearQuarterConcat (YearQuarterConcat r0) d_time)
               (plot_time (ui w')))
    /\ ((forall r, In r df0 -> YearMonthConcat r <> time st) ->
        time_chart_rows df0 st = d_time
        /\ draws YearMonthConcat d_time (plot_time (ui w')))
    /\ highlights (time st) (plot_time (ui w')).
Proof.
  intros d_time Hmode Hdash HQ.
  destruct (update_dashboard_time {| df := df0; state := st; ui := u |})
    as (w' & U & Hdf & Hst & _ & Hpl & _).
  cbn [df state] in Hdf, Hst, Hpl.
  exists w'. split; [exact U|]. split; [exact Hdf|]. split; [exact Hst|].
  rewrite Hpl.
  assert (R : time_chart_rows df0 st
              = match where_eq YearMonthConcat (time st) df0 with
                | r0 :: _ => where_eq YearQuarterConcat (YearQuarterConcat r0) d_time
                | [] => d_time
                end).
  { unfold time_chart_rows.
    now rewrite Hmode, (has_dash_not_All _ Hdash), HQ, Hdash. }
  destruct (time_chart_draws df0 st) as (D & H & _).
  rewrite Hmode in D.
  split; [|split].
  - intros (r & Ir & Er).
    destruct (where_eq YearMonthConcat (time st) df0) as [|r0 rest] eqn:M.
    + exfalso. assert (I : In r (where_eq YearMonthConcat (time st) df0))
        by now apply where_eq_In.
      now rewrite M in I.
    + assert (I : In r0 (where_eq YearMonthConcat (time st) df0))
        by (rewrite M; now left).
      apply where_eq_In in I. destruct I as [I E].
      exists r0, rest. rewrite R in D. repeat split; assumption.
  - intros None.
    destruct (where_eq YearMonthConcat (time st) df0) as [|r0 rest] eqn:M.
    + rewrite R in D. now split.
    + exfalso. assert (I : In r0 (where_eq YearMonthConcat (time st) df0))
        by (rewrite M; now left).
      apply where_eq_In in I. destruct I as [I E]. exact (None r0 I E).
  - apply H. rewrite Hmode, HQ, (has_dash_not_All _ Hdash). reflexivity.
Qed.

Lemma month_parent_quarter_witness :
  let st := month_state "2023-03" in
  let d_time := get_data sample_df st false false true false in
  exists w',
    update_dashboard {| df := sample_df; state := st; ui := initial_ui |}
    = Ok w'
    /\ df w' = sample_df
    /\ state w' = st
    /\ ((exists r, In r sample_df /\ YearMonthConcat r = "2023-03") ->
        exists r0 rest,
          where_eq YearMonthConcat "2023-03" sample_df = r0 :: rest
          /\ In r0 sample_df /\ YearMonthConcat r0 = "2023-03"
          /\ time_chart_rows sample_df st
             = where_eq YearQuarterConcat (YearQuarterConcat r0) d_time
          /\ draws YearMonthConcat
               (where_eq YearQuarterConcat (YearQuarterConcat r0) d_time)
               (plot_time (ui w')))
    /\ ((forall r, In r sample_df -> YearMonthConcat r <> "2023-03") ->
        time_chart_rows sample_df st = d_time
        /\ draws YearMonthConcat d_time (plot_time (ui w')))
    /\ highlights "2023-03" (plot_time (ui w')).
Proof.
  apply (month_parent_quarter sample_df (month_state "2023-03") initial_ui);
    reflexivity.
Defined.

(** The page of the witness, and the page of a month no row has. *)
Example month_known_page :
  option_map (fun fig => (bars fig, bar_opacity fig))
    (time_chart sample_df (month_state "2023-03"))
  = Some ([("2023-01", 90); ("2023-03", 60)], Some [3 # 10; 1]).
Proof. reflexivity. Qed.

Example month_unknown_page :
  option_map (fun fig => map fst (bars fig))
    (time_chart sample_df (month_state "2031-07"))
  = Some ["2023-01"; "2023-03"; "2023-04"].
Proof. reflexivity. Qed.

(** * KPIs over the machine's arithmetic *)

Lemma truediv_on_len (M : Machine) {A} (a : Q) (x : A) (l : list A) :
  truediv_on M a (len (x :: l)) = Ok (m_div M a (len (x :: l))).
Proof. unfold truediv_on. now rewrite len_cons_nonzero. Qed.

Lemma truediv_on_pos (M : Machine) (a b : Q) :
  0 < b -> truediv_on M a b = Ok (m_div M a b).
Proof.
  intros H. unfold truediv_on.
  destruct (Qeq_bool b 0) eqn:E; [|reflexivity].
  apply Qeq_bool_iff in E. rewrite E in H. now apply Qlt_irrefl in H.
Qed.

(** With the exact arithmetic the block is the one the refresh runs. *)
Lemma kpis_on_exact (df0 d : list Row) : kpis_on exact df0 d = compute_kpis df0 d.
Proof. reflexivity. Qed.

(** The block never raises, whatever the machine computes. *)
Lemma kpis_on_total (M : Machine) (df0 d : list Row) :
  exists k, kpis_on M df0 d = Ok k.
Proof.
  unfold kpis_on. destruct d as [|r d]; cbn [is_empty]; [eauto|].
  unfold val_w_on. destruct (Qgtb _ 0) eqn:E.
  - apply Qgtb_true in E. rewrite (truediv_on_pos _ _ _ E). cbn [bind].
    unfold pass_rate_on, perfect_rate_on. rewrite !truediv_on_len.
    cbn [bind]. eauto.
  - cbn [bind]. unfold pass_rate_on, perfect_rate_on.
    rewrite !truediv_on_len. cbn [bind]. eauto.
Qed.

(** C5.  On a view that holds a row, whatever rounding the machine's sums,
    quotient, product and number formatting apply: the weighted average is
    sum(WeightedScore)/sum(Weight) when sum(Weight) is positive and 0
    otherwise; the number shown is that ratio times 100 exactly when the
    ratio is at most 1 and the ratio itself otherwise; and the text the KPI
    block sets is that number with two decimals and a percent sign, in
    [update_dashboard] of app.py and in [Dashboard.render_kpis] alike. *)
Theorem weighted_kpi (M : Machine) (df0 : list Row) (st : State) :
  let d_kpi := get_data df0 st false false false false in
  let sum_w := m_sum M (map Weight d_kpi) in
  let sum_ws := m_sum M (map WeightedScore d_kpi) in
  d_kpi <> [] ->
  exists k k' ratio shown,
    kpis_on M df0 d_kpi = Ok k
    /\ render_kpis_on M df0 st = Ok k'
    /\ (0 < sum_w -> ratio = m_div M sum_ws sum_w)
    /\ (~ 0 < sum_w -> ratio = 0)
    /\ (ratio <= 1 -> shown = m_mul M ratio 100)
    /\ (~ ratio <= 1 -> shown = ratio)
    /\ weighted_text k = m_fmt M 2 shown ++ "%"
    /\ weighted_text k' = m_fmt M 2 shown ++ "%".
Proof.
  intros d_kpi sum_w sum_ws NE.
  unfold render_kpis_on. fold d_kpi. unfold kpis_on.
  destruct d_kpi as [|r d] eqn:Ed; [congruence|]. cbn [is_empty].
  unfold pass_rate_on, perfect_rate_on. rewrite !truediv_on_len.
  unfold val_w_on. fold sum_w sum_ws.
  assert (S : forall v,
             (v <= 1 -> weighted_display_on M v = m_mul M v 100)
             /\ (~ v <= 1 -> weighted_display_on M v = v)).
  { intros v. unfold weighted_display_on. split; intros L.
    - apply Qle_bool_iff in L. now rewrite L.
    - apply Qle_bool_false in L. now rewrite L. }
  destruct (Qgtb sum_w 0) eqn:G.
  - apply Qgtb_true in G. rewrite (truediv_on_pos _ _ _ G). cbn [bind].
    do 2 eexists.
    exists (m_div M sum_ws sum_w),
           (weighted_display_on M (m_div M sum_ws sum_w)).
    split; [reflexivity|]. split; [reflexivity|].
    split; [reflexivity|]. split; [tauto|].
    split; [apply S|]. split; [apply S|]. split; reflexivity.
  - apply Qgtb_false in G. cbn [bind].
    do 2 eexists. exists 0, (weighted_display_on M 0).
    split; [reflexivity|]. split; [reflexivity|].
    split; [tauto|]. split; [reflexivity|].
    split; [apply S|]. split; [apply S|]. split; reflexivity.
Qed.

(** The theorem at a view on the 0-1 scale, where the ratio 3/4 is shown
    times 100, and at a view whose weights sum to nothing. *)
Lemma weighted_kpi_witness :
  (exists k k' ratio shown,
     kpis_on exact (prepare unit_sheet) (prepare unit_sheet) = Ok k
     /\ render_kpis_on exact (prepare unit_sheet) initial_state = Ok k'
     /\ (0 < 2 -> ratio = (3 # 2) / 2)
     /\ (~ 0 < 2 -> ratio = 0)
     /\ (ratio <= 1 -> shown = ratio * 100)
     /\ (~ ratio <= 1 -> shown = ratio)
     /\ weighted_text k = PyStr.fmt_f 2 shown ++ "%"
     /\ weighted_text k' = PyStr.fmt_f 2 shown ++ "%")
  /\ (exists k k' ratio shown,
        kpis_on exact (prepare weightless_sheet) (prepare weightless_sheet)
        = Ok k
        /\ render_kpis_on exact (prepare weightless_sheet) initial_state
           = Ok k'
        /\ (0 < 0 -> ratio = 0 / 0)
        /\ (~ 0 < 0 -> ratio = 0)
        /\ (ratio <= 1 -> shown = ratio * 100)
        /\ (~ ratio <= 1 -> shown = ratio)
        /\ weighted_text k = PyStr.fmt_f 2 shown ++ "%"
        /\ weighted_text k' = PyStr.fmt_f 2 shown ++ "%").
Proof.
  split.
  - apply (weighted_kpi exact (prepare unit_sheet) initial_state).
    discriminate.
  - apply (weighted_kpi exact (prepare weightless_sheet) initial_state).
    discriminate.
Defined.

(** The texts of the two views of the witness. *)
Example weighted_unit_scale :
  option_map weighted_text
    (match kpis_on exact (prepare unit_sheet) (prepare unit_sheet) with
     | Ok k => Some k | Raise _ => None end) = Some "75.00%".
Proof. reflexivity. Qed.

Example weighted_no_weight :
  option_map weighted_text
    (match kpis_on exact (prepare weightless_sheet)
             (prepare weightless_sheet) with
     | Ok k => Some k | Raise _ => None end) = Some "0.00%".
Proof. reflexivity. Qed.

(** C6.  On a view that holds a row, whatever rounding the machine's
    quotient, product, mean and number formatting apply: the target of the
    perfect-score KPI is 100 when the maximum score of the whole table [df]
    (not of the view) exceeds 1 and 1 otherwise; the rate is the number of
    rows of the view whose score equals the target, over the number of rows
    of the view, times 100 (in the class of app_comment.py: the mean of the
    boolean series "score equals target", times 100); and the text set is
    that rate with one decimal and a percent sign. *)
Theorem perfect_kpi (M : Machine) (df0 : list Row) (st : State) :
  let d_kpi := get_data df0 st false false false false in
  d_kpi <> [] ->
  exists k k' tgt rate rate',
    kpis_on M df0 d_kpi = Ok k
    /\ render_kpis_on M df0 st = Ok k'
    /\ (exists m, is_maximum m (map Score df0))
    /\ (forall m, is_maximum m (map Score df0) ->
          (1 < m -> tgt = 100) /\ (~ 1 < m -> tgt = 1))
    /\ rate = m_mul M
                (m_div M (len (filter (fun r => Qeq_bool (Score r) tgt) d_kpi))
                         (len d_kpi))
                100
    /\ perfect_text k = m_fmt M 1 rate ++ "%"
    /\ rate' = m_mul M
                 (m_mean M (map (fun r => as_number (Qeq_bool (Score r) tgt))
                                d_kpi))
                 100
    /\ perfect_text k' = m_fmt M 1 rate' ++ "%".
Proof.
  intros d_kpi NE.
  assert (NEdf : map Score df0 <> []).
  { intros E. apply NE. unfold d_kpi.
    destruct df0; [apply get_data_nil | discriminate]. }
  pose proof (series_max_is_maximum _ NEdf) as Mx.
  destruct (kpis_on_total M df0 d_kpi) as [k K].
  unfold render_kpis_on. fold d_kpi. unfold kpis_on in K.
  destruct d_kpi as [|r d] eqn:Ed; [congruence|]. cbn [is_empty] in *.
  destruct (val_w_on M (r :: d)) as [v|e] eqn:V; cbn [bind] in *;
    [|discriminate].
  unfold pass_rate_on, perfect_rate_on in K. rewrite !truediv_on_len in K.
  cbn [bind] in K. injection K as <-.
  do 2 eexists. exists (target df0). do 2 eexists.
  split; [unfold kpis_on; cbn [is_empty]; rewrite V; cbn [bind];
          unfold pass_rate_on, perfect_rate_on; rewrite !truediv_on_len;
          reflexivity|].
  split; [reflexivity|]. split; [eauto|].
  split; [|cbn [perfect_text]; repeat split; reflexivity].
  intros m Hm. pose proof (is_maximum_unique _ _ _ Hm Mx) as E.
  unfold target. split; intros H.
  - rewrite E in H. apply Qgtb_true in H. now rewrite H.
  - rewrite E in H. apply Qgtb_false in H. now rewrite H.
Qed.

(** The theorem at a table on the 0-100 scale with two perfect scores in
    four rows, and at a table on the 0-1 scale with one in two. *)
Lemma perfect_kpi_witness :
  (exists k k' tgt rate rate',
     kpis_on exact (prepare hundred_sheet) (prepare hundred_sheet) = Ok k
     /\ render_kpis_on exact (prepare hundred_sheet) initial_state = Ok k'
     /\ (exists m, is_maximum m (map Score (prepare hundred_sheet)))
     /\ (forall m, is_maximum m (map Score (prepare hundred_sheet)) ->
           (1 < m -> tgt = 100) /\ (~ 1 < m -> tgt = 1))
     /\ rate = len (filter (fun r => Qeq_bool (Score r) tgt)
                           (prepare hundred_sheet))
               / len (prepare hundred_sheet) * 100
     /\ perfect_text k = PyStr.fmt_f 1 rate ++ "%"
     /\ rate' = mean (map (fun r => as_number (Qeq_bool (Score r) tgt))
                          (prepare hundred_sheet)) * 100
     /\ perfect_text k' = PyStr.fmt_f 1 rate' ++ "%")
  /\ (exists k k' tgt rate rate',
        kpis_on exact (prepare unit_sheet) (prepare unit_sheet) = Ok k
        /\ render_kpis_on exact (prepare unit_sheet) initial_state = Ok k'
        /\ (exists m, is_maximum m (map Score (prepare unit_sheet)))
        /\ (forall m, is_maximum m (map Score (prepare unit_sheet)) ->
              (1 < m -> tgt = 100) /\ (~ 1 < m -> tgt = 1))
        /\ rate = len (filter (fun r => Qeq_bool (Score r) tgt)
                              (prepare unit_sheet))
                  / len (prepare unit_sheet) * 100
        /\ perfect_text k = PyStr.fmt_f 1 rate ++ "%"
        /\ rate' = mean (map (fun r => as_number (Qeq_bool (Score r) tgt))
                             (prepare unit_sheet)) * 100
        /\ perfect_text k' = PyStr.fmt_f 1 rate' ++ "%").
Proof.
  split.
  - apply (perfect_kpi exact (prepare hundred_sheet) initial_state).
    discriminate.
  - apply (perfect_kpi exact (prepare unit_sheet) initial_state).
    discriminate.
Defined.

(** The texts of the two tables of the witness. *)
Example perfect_hundred_scale :
  option_map perfect_text
    (match kpis_on exact (prepare hundred_sheet) (prepare hundred_sheet) with
     | Ok k => Some k | Raise _ => None end) = Some "50.0%".
Proof. reflexivity. Qed.

Example perfect_unit_scale :
  option_map perfect_text
    (match kpis_on exact (prepare unit_sheet) (prepare unit_sheet) with
     | Ok k => Some k | Raise _ => None end) = Some "50.0%".
Proof. reflexivity. Qed.

(** * The handlers, statement by statement *)

Lemma refresh_returns (w : World) :
  exists w', update_dashboard w = Ok w' /\ Stepwise.refresh w = (Ok tt, w').
Proof.
  destruct (update_dashboard_total w) as [u U].
  eexists. split; [exact U|]. unfold Stepwise.refresh. now rewrite U.
Qed.

Ltac run_refresh :=
  match goal with
  | |- context [Stepwise.refresh ?x] =>
      let w' := fresh "w" in
      let U := fresh "U" in
      let R := fresh "R" in
      destruct (refresh_returns x) as (w' & U & R); rewrite R; clear R;
      try rewrite U
  end.

(** The handlers of the model are the statement sequences, read at their
    end: same world when they return, same exception when they raise. *)
Lemma process_dispatch (ev : Event) (w : World) :
  dispatch ev w
  = match Stepwise.process ev w with
    | (Ok _, w') => Ok w'
    | (Raise e, _) => Raise e
    end.
Proof.
  destruct ev as [args|args|args|args|value|];
    cbn [dispatch Stepwise.process].
  - unfold handle_click_grade, Stepwise.handle_click_grade, Stepwise.ret.
    destruct (has_points args); [|reflexivity].
    unfold Stepwise.seq, Stepwise.eval, Stepwise.assign.
    destruct (clicked_field args "label"); cbn [bind]; [|reflexivity].
    now run_refresh.
  - unfold handle_click_level, Stepwise.handle_click_level, Stepwise.ret.
    destruct (has_points args); [|reflexivity].
    unfold Stepwise.seq, Stepwise.eval, Stepwise.assign.
    destruct (clicked_field args "label"); cbn [bind]; [|reflexivity].
    now run_refresh.
  - unfold handle_click_time, Stepwise.handle_click_time, Stepwise.ret.
    destruct (has_points args); [|reflexivity].
    unfold Stepwise.seq, Stepwise.eval, Stepwise.assign.
    destruct (clicked_field args "x"); cbn [bind]; [|reflexivity].
    destruct (view_mode (state w)); now run_refresh.
  - unfold handle_click_subject, Stepwise.handle_click_subject, Stepwise.ret.
    destruct (has_points args); [|reflexivity].
    unfold Stepwise.seq, Stepwise.eval, Stepwise.assign.
    destruct (clicked_field args "x"); cbn [bind]; [|reflexivity].
    now run_refresh.
  - unfold Stepwise.on_view_change, Stepwise.seq, Stepwise.assign,
      on_view_change.
    run_refresh. cbn [bind]. now run_refresh.
  - unfold reset_filters, Stepwise.reset_filters, Stepwise.seq,
      Stepwise.assign.
    now run_refresh.
Qed.

(** A sequence that raises has assigned nothing: the session it leaves is
    the one it found. *)
Lemma process_raise_keeps (ev : Event) (w w' : World) (e : exn) :
  Stepwise.process ev w = (Raise e, w') -> w' = w.
Proof.
  destruct ev as [args|args|args|args|value|]; cbn [Stepwise.process].
  - unfold Stepwise.handle_click_grade, Stepwise.ret.
    destruct (has_points args); [|discriminate].
    unfold Stepwise.seq, Stepwise.eval, Stepwise.assign.
    destruct (clicked_field args "label"); [|now intros [= _ <-]].
    run_refresh. discriminate.
  - unfold Stepwise.handle_click_level, Stepwise.ret.
    destruct (has_points args); [|discriminate].
    unfold Stepwise.seq, Stepwise.eval, Stepwise.assign.
    destruct (clicked_field args "label"); [|now intros [= _ <-]].
    run_refresh. discriminate.
  - unfold Stepwise.handle_click_time, Stepwise.ret.
    destruct (has_points args); [|discriminate].
    unfold Stepwise.seq, Stepwise.eval, Stepwise.assign.
    destruct (clicked_field args "x"); [|now intros [= _ <-]].
    destruct (view_mode (state w)); run_refresh; discriminate.
  - unfold Stepwise.handle_click_subject, Stepwise.ret.
    destruct (has_points args); [|discriminate].
    unfold Stepwise.seq, Stepwise.eval, Stepwise.assign.
    destruct (clicked_field args "x"); [|now intros [= _ <-]].
    run_refresh. discriminate.
  - unfold Stepwise.on_view_change, Stepwise.seq, Stepwise.assign.
    run_refresh. run_refresh. discriminate.
  - unfold Stepwise.reset_filters, Stepwise.seq, Stepwise.assign.
    run_refresh. discriminate.
Qed.

Lemma step_process (w : World) (ev : Event) :
  step w ev = snd (Stepwise.process ev w).
Proof.
  unfold step. rewrite process_dispatch.
  destruct (Stepwise.process ev w) as [[[]|e] w'] eqn:P; [reflexivity|].
  cbn [snd]. symmetry. exact (process_raise_keeps _ _ _ _ P).
Qed.

Lemma run_stepwise (evs : list Event) (w : World) :
  run evs w = Stepwise.run evs w.
Proof.
  unfold run, Stepwise.run. revert w.
  induction evs as [|ev evs IH]; intros w; [reflexivity|].
  cbn [fold_left]. now rewrite step_process, IH.
Qed.

Lemma click_proc_process (c : Chart) (args : Args) :
  Stepwise.process (click_event c args) = click_proc c args.
Proof. now destruct c. Qed.

Lemma click_proc_guarded (c : Chart) (args : Args) (w : World) :
  has_points args = false -> click_proc c args w = (Ok tt, w).
Proof.
  intros H. destruct c; cbn [click_proc];
    [unfold Stepwise.handle_click_grade | unfold Stepwise.handle_click_level
     | unfold Stepwise.handle_click_time | unfold Stepwise.handle_click_subject];
    now rewrite H.
Qed.

Lemma click_proc_raises (c : Chart) (args : Args) (w : World) (e : exn) :
  has_points args = true ->
  clicked_field args (click_field c) = Raise e ->
  click_proc c args w = (Raise e, w).
Proof.
  intros H R. destruct c; cbn [click_proc click_field] in *;
    [unfold Stepwise.handle_click_grade | unfold Stepwise.handle_click_level
     | unfold Stepwise.handle_click_time | unfold Stepwise.handle_click_subject];
    rewrite H; unfold Stepwise.seq, Stepwise.eval; now rewrite R.
Qed.

(** C8, as the code has it.  The four click handlers guard on
    [e.args and 'points' in e.args] and on nothing else.  When [e.args] is
    [None], is empty or has no ['points'] entry, each handler returns
    without raising and has run no statement: the session it leaves, filter
    state, page and refresh count, is the one it found.  When the
    ['points'] entry is there but yields no clicked label (no point, or a
    first point without the field the handler reads), the handler raises
    that [IndexError] or [KeyError] from its first statement: the session
    at the raise is the one it found, no assignment and no refresh having
    run. *)
Theorem malformed_click (c : Chart) (args : Args) (w : World) :
  (missing_points args ->
   click_proc c args w = (Ok tt, w)
   /\ click_handler c args w = Ok w)
  /\ (forall e,
        has_points args = true ->
        clicked_field args (click_field c) = Raise e ->
        click_proc c args w = (Raise e, w)
        /\ click_handler c args w = Raise e).
Proof.
  split.
  - intros M. apply missing_points_guard in M.
    split; [now apply click_proc_guarded | now apply handler_guarded].
  - intros e H R.
    split; [now apply click_proc_raises | now apply handler_raises].
Qed.

Lemma malformed_click_witness :
  (Stepwise.handle_click_time None (sample_world initial_state)
   = (Ok tt, sample_world initial_state)
   /\ handle_click_time None (sample_world initial_state)
      = Ok (sample_world initial_state))
  /\ (Stepwise.handle_click_grade (Some [("event", [])])
        (sample_world initial_state)
      = (Ok tt, sample_world initial_state)
      /\ handle_click_grade (Some [("event", [])]) (sample_world initial_state)
         = Ok (sample_world initial_state))
  /\ (Stepwise.handle_click_level no_point (sample_world initial_state)
      = (Raise IndexError, sample_world initial_state)
      /\ handle_click_level no_point (sample_world initial_state)
         = Raise IndexError).
Proof.
  split; [|split].
  - apply (proj1 (malformed_click TimeChart None (sample_world initial_state))).
    exact I.
  - apply (proj1 (malformed_click GradeChart (Some [("event", [])])
                    (sample_world initial_state))).
    right. reflexivity.
  - apply (proj2 (malformed_click LevelChart no_point
                    (sample_world initial_state))); reflexivity.
Defined.

Lemma click_proc_raise_inv (c : Chart) (args : Args) (w w' : World) (e : exn) :
  click_proc c args w = (Raise e, w') ->
  has_points args = true /\ clicked_field args (click_field c) = Raise e.
Proof.
  intros H. destruct (has_points args) eqn:P;
    [|rewrite (click_proc_guarded c args w P) in H; discriminate].
  split; [reflexivity|].
  destruct (clicked_field args (click_field c)) as [v|e'] eqn:C.
  - exfalso. revert H.
    destruct c; cbn [click_proc click_field] in *;
      [unfold Stepwise.handle_click_grade | unfold Stepwise.handle_click_level
       | unfold Stepwise.handle_click_time
       | unfold Stepwise.handle_click_subject];
      rewrite P; unfold Stepwise.seq, Stepwise.eval, Stepwise.assign;
      rewrite C; try destruct (view_mode (state w)); run_refresh;
      discriminate.
  - rewrite (click_proc_raises c args w e' P C) in H. now injection H as <- _.
Qed.

(** X23.  No event can make the engine fail on its data: a refresh returns
    for every table and state, so a view-mode toggle and a reset always
    return, and a click handler raises only while reading its payload, an
    [IndexError] for an empty list of points or a [KeyError] for the field
    it reads; the session at the raise is the one the handler found, no
    assignment and no refresh having run. *)
Theorem only_payloads_raise (ev : Event) (w w' : World) (e : exn) :
  Stepwise.process ev w = (Raise e, w') ->
  (exists c args,
     ev = click_event c args
     /\ has_points args = true
     /\ clicked_field args (click_field c) = Raise e)
  /\ (e = IndexError \/ exists k, e = KeyError k)
  /\ w' = w
  /\ dispatch ev w = Raise e.
Proof.
  intros H.
  assert (K : w' = w) by exact (process_raise_keeps _ _ _ _ H).
  assert (D : dispatch ev w = Raise e) by (now rewrite process_dispatch, H).
  assert (X : exists c args,
             ev = click_event c args
             /\ has_points args = true
             /\ clicked_field args (click_field c) = Raise e).
  { destruct ev as [args|args|args|args|value|].
    - exists GradeChart, args. split; [reflexivity|].
      exact (click_proc_raise_inv GradeChart args w w' e H).
    - exists LevelChart, args. split; [reflexivity|].
      exact (click_proc_raise_inv LevelChart args w w' e H).
    - exists TimeChart, args. split; [reflexivity|].
      exact (click_proc_raise_inv TimeChart args w w' e H).
    - exists SubjectChart, args. split; [reflexivity|].
      exact (click_proc_raise_inv SubjectChart args w w' e H).
    - exfalso. cbn [Stepwise.process] in H.
      unfold Stepwise.on_view_change, Stepwise.seq, Stepwise.assign in H.
      revert H. run_refresh. run_refresh. discriminate.
    - exfalso. cbn [Stepwise.process] in H.
      unfold Stepwise.reset_filters, Stepwise.seq, Stepwise.assign in H.
      revert H. run_refresh. discriminate. }
  split; [exact X|]. split; [|split; [exact K | exact D]].
  destruct X as (c & args & _ & P & C).
  destruct (clicked_field_raises args _ e P C) as [->| ->]; eauto.
Qed.

Lemma only_payloads_raise_witness :
  (exists c args,
     LevelClicked no_point = click_event c args
     /\ has_points args = true
     /\ clicked_field args (click_field c) = Raise IndexError)
  /\ (IndexError = IndexError \/ exists k, IndexError = KeyError k)
  /\ sample_world (set_grade "A" initial_state)
     = sample_world (set_grade "A" initial_state)
  /\ dispatch (LevelClicked no_point)
       (sample_world (set_grade "A" initial_state))
     = Raise IndexError.
Proof.
  apply (only_payloads_raise (LevelClicked no_point)
           (sample_world (set_grade "A" initial_state))
           (sample_world (set_grade "A" initial_state)) IndexError).
  reflexivity.
Defined.

(** * The page over a session *)

Lemma shows_drawn (w : World) : shows w -> drawn w.
Proof.
  intros (_ & _ & Sg & Sl & St & Ss & _). unfold drawn.
  rewrite Sg, Sl, St, Ss. repeat split.
  - unfold grade_chart.
    destruct (get_data (df w) (state w) true false false false);
      cbn [is_empty negb]; [reflexivity|].
    cbn [pie_slices pie_annotation]. repeat split. discriminate.
  - unfold level_chart.
    destruct (get_data (df w) (state w) false true false false);
      cbn [is_empty negb]; [reflexivity|].
    cbn [pie_slices pie_annotation]. repeat split. discriminate.
  - apply time_chart_draws.
  - unfold subject_chart.
    destruct (get_data (df w) (state w) false false false true) as [|r d];
      cbn [is_empty negb]; [reflexivity|].
    cbn [bars]. split; [discriminate|]. split; [apply sort_stable_perm|].
    apply Sorted_weaken
      with (R := fun a b : string * Q => Qle_bool (snd b) (snd a) = true).
    + intros a b H. now apply Qle_bool_iff.
    + apply sort_stable_sorted. intros a b. apply mean_leb_total.
Qed.

(** X18.  From a session whose page shows its filter state (status line,
    KPI labels, figures and title computed from it, toggle equal to the
    view mode), the page shows the filter state after every list of events,
    whether their handlers return or raise; and each figure is then drawn
    from the views of that state: blank exactly when its view has no row,
    otherwise with the slices or bars of the rows of the view. *)
Theorem page_follows_state (w : World) (evs : list Event) :
  shows w ->
  shows (Stepwise.run evs w) /\ drawn (Stepwise.run evs w).
Proof.
  intros S. rewrite <- run_stepwise.
  pose proof (run_shows evs w S) as R. split; [exact R|].
  now apply shows_drawn.
Qed.

Lemma page_follows_state_witness :
  let w := step (sample_world initial_state) ResetRequested in
  let evs := [TimeClicked (click "x" "2023 Q1"); LevelClicked no_point;
              GradeClicked (click "label" "A")] in
  shows (Stepwise.run evs w) /\ drawn (Stepwise.run evs w).
Proof.
  apply (page_follows_state
           (step (sample_world initial_state) ResetRequested)).
  vm_compute. repeat split.
Defined.
